(** * The multi-round tool-orchestration loop of the course assistant

    A shallow embedding of [backend/ai_generator.py] (class [AIGenerator]),
    together with the tool registry and the search tool that the loop drives.

    The generative model and the tool manager are external collaborators:
    they are modelled as operations on an abstract world, every call being
    recorded, with its outcome, in a trace.  Python exceptions are explicit
    results, [try]/[except] is a combinator of a small state-and-error monad. *)

From Stdlib Require Import ZArith String Ascii List Lia.
From Stdlib Require QArith_base.
From stdpp Require Import base strings list gmap pretty.
Local Open Scope string_scope.
Local Open Scope list_scope.
Local Open Scope nat_scope.

(** ** Python values *)

(** An exception ([Exception] and its subclasses); [str e] is its message. *)
Inductive Exception : Type := Exn (msg : string).

Definition str (e : Exception) : string := let 'Exn msg := e in msg.

(** The outcome of evaluating a Python expression. *)
Inductive Res (A : Type) : Type :=
| Ok (a : A)
| Raise (e : Exception).
Arguments Ok {A} a.
Arguments Raise {A} e.

(** Truth value testing, as [if x:] does. *)
Class Truthy (A : Type) := truthy : A → bool.

#[global] Instance string_truthy : Truthy string :=
  fun s => match s with EmptyString => false | String _ _ => true end.
#[global] Instance list_truthy {A} : Truthy (list A) :=
  fun l => match l with [] => false | _ :: _ => true end.
#[global] Instance option_truthy {A} `{Truthy A} : Truthy (option A) :=
  fun o => match o with None => false | Some a => truthy a end.

Definition newline : string := String (ascii_of_nat 10) EmptyString.

(** ** Data exchanged with the model *)

(** A JSON value of a tool-call argument. *)
Inductive ArgValue : Type :=
| VStr (s : string)
| VInt (n : Z).

(** [content_block.input]: a dict of keyword arguments. *)
Definition ToolInput : Type := list (string * ArgValue).

(** A content block of a model response. A text block has [type == "text"]
    and a [text]; a tool-use block has [type == "tool_use"], an [id], a
    [name] and an [input], and no [text] attribute. *)
Inductive ContentBlock : Type :=
| TextBlock (text : string)
| ToolUseBlock (id name : string) (input : ToolInput).

Record Response : Type := mkResponse {
  content : list ContentBlock;
  stop_reason : string
}.

(** The dict appended to [tool_results]. *)
Record ToolResult : Type := mkToolResult {
  result_type : string;
  tool_use_id : string;
  result_content : string
}.

(** The ["content"] of a message: the query, the blocks of a model response,
    or a list of tool results. *)
Inductive MessageContent : Type :=
| QueryText (s : string)
| Blocks (bs : list ContentBlock)
| Results (rs : list ToolResult).

Record Message : Type := mkMessage {
  role : string;
  message_content : MessageContent
}.

(** A tool schema as offered to the model. *)
Record ToolSchema : Type := mkToolSchema {
  schema_name : string;
  schema_description : string;
  schema_required : list string
}.

Record ToolChoice : Type := mkToolChoice { choice_type : string }.

(** The keyword arguments of [client.messages.create]; an absent key is
    [None]. *)
Record ApiParams : Type := mkApiParams {
  api_model : string;
  api_temperature : Z;
  api_max_tokens : Z;
  api_messages : list Message;
  api_system : string;
  api_tools : option (list ToolSchema);
  api_tool_choice : option ToolChoice
}.

(** ** Traces and the monad *)

(** What the loop does to its collaborators, with what came back. *)
Inductive Event : Type :=
| ModelCall (params : ApiParams) (outcome : Res Response)
| ToolCall (name : string) (input : ToolInput) (outcome : Res string).

Record Run (W : Type) : Type := mkRun {
  world : W;
  trace : list Event
}.
Arguments mkRun {W} world trace.
Arguments world {W} r.
Arguments trace {W} r.

Definition M (W A : Type) : Type := Run W → Res A * Run W.

Definition ret {W A} (a : A) : M W A := fun st => (Ok a, st).

Definition raise {W A} (e : Exception) : M W A := fun st => (Raise e, st).

Definition bind {W A B} (m : M W A) (k : A → M W B) : M W B :=
  fun st =>
    match m st with
    | (Ok a, st') => k a st'
    | (Raise e, st') => (Raise e, st')
    end.

(** [try: body except Exception as e: handler]. Whatever [body] did to the
    world before raising stays done. *)
Definition try_except {W A} (body : M W A) (handler : Exception → M W A) : M W A :=
  fun st =>
    match body st with
    | (Ok a, st') => (Ok a, st')
    | (Raise e, st') => handler e st'
    end.

(** An external call: run it on the world and log it. *)
Definition external {W A} (op : W → Res A * W) (log : Res A → Event) : M W A :=
  fun st =>
    let '(r, w') := op (world st) in
    (r, mkRun w' (trace st ++ [log r])).

Declare Scope py_scope.
Delimit Scope py_scope with py.
Notation "x <- c1 ;; c2" := (bind c1 (fun x => c2))
  (at level 100, c1 at next level, right associativity) : py_scope.
Local Open Scope py_scope.

(** Projections of a trace: the parameters and the outcomes of the model
    calls, and the tool calls, in order. *)
Fixpoint model_calls (tr : list Event) : list ApiParams :=
  match tr with
  | [] => []
  | ModelCall p _ :: tr => p :: model_calls tr
  | ToolCall _ _ _ :: tr => model_calls tr
  end.

Fixpoint model_outcomes (tr : list Event) : list (Res Response) :=
  match tr with
  | [] => []
  | ModelCall _ outcome :: tr => outcome :: model_outcomes tr
  | ToolCall _ _ _ :: tr => model_outcomes tr
  end.

Fixpoint tool_calls (tr : list Event) : list (string * ToolInput) :=
  match tr with
  | [] => []
  | ModelCall _ _ :: tr => tool_calls tr
  | ToolCall name input _ :: tr => (name, input) :: tool_calls tr
  end.

Definition is_tool_call (ev : Event) : bool :=
  match ev with ToolCall _ _ _ => true | ModelCall _ _ => false end.

(** ** ai_generator.py *)

(** [ConversationState]: tracks conversation state across the rounds. *)
Record ConversationState (TM : Type) : Type := mkConversationState {
  messages : list Message;
  round_count : nat;
  max_rounds : nat;
  tools : option (list ToolSchema);
  tool_manager : option TM
}.
Arguments mkConversationState {TM}.
Arguments messages {TM} c.
Arguments round_count {TM} c.
Arguments max_rounds {TM} c.
Arguments tools {TM} c.
Arguments tool_manager {TM} c.

(** [RoundResponse]: the result of a single round. *)
Record RoundResponse : Type := mkRoundResponse {
  claude_response : option Response;
  has_tool_calls : bool;
  tool_results : list ToolResult;
  final_text : option string;
  error : option string
}.

(** [self]: the model name and the pre-built base parameters. *)
Record AIGenerator : Type := mkAIGenerator {
  model : string;
  base_temperature : Z;
  base_max_tokens : Z
}.

(** [AIGenerator.__init__]. *)
Definition new_AIGenerator (model : string) : AIGenerator :=
  mkAIGenerator model 0 800.

(** [response.content[0].text]: an [IndexError] on an empty content list, an
    [AttributeError] on a block without [text]. *)
Definition content_0_text (r : Response) : Res string :=
  match content r with
  | [] => Raise (Exn "list index out of range")
  | TextBlock text :: _ => Ok text
  | ToolUseBlock _ _ _ :: _ =>
      Raise (Exn "'ToolUseBlock' object has no attribute 'text'")
  end.

Definition eval {W A} (r : Res A) : M W A := fun st => (r, st).

(** [a and b] where [a] is a [bool] and [b] an optional object: [b] when
    both are truthy. *)
Definition py_and {A} (a : bool) (b : option A) : option A :=
  if a then b else None.

Section Orchestration.
(** The world the collaborators live in, and handles on tool managers
    (any object is truthy, so a handle that is there passes
    [and state.tool_manager]). *)
Context {W TM : Type}.
(** [self.client.messages.create], called with the entries of [api_params]. *)
Variable create : ApiParams → W → Res Response * W.
(** [tool_manager.execute_tool], called with the name and the entries of
    the block's [input]. *)
Variable execute_tool : TM → string → ToolInput → W → Res string * W.
(** The class constant [SYSTEM_PROMPT]. *)
Variable SYSTEM_PROMPT : string.

Definition client_create (p : ApiParams) : M W Response :=
  external (create p) (ModelCall p).

Definition manager_execute_tool (tm : TM) (name : string) (input : ToolInput)
  : M W string :=
  external (execute_tool tm name input) (ToolCall name input).

(** The [for content_block in claude_response.content] loop of
    [_handle_tool_execution], [tool_results] being the list built so far. *)
Fixpoint handle_blocks (blocks : list ContentBlock) (tool_manager : TM)
    (tool_results : list ToolResult) : M W (list ToolResult) :=
  match blocks with
  | [] => ret tool_results
  | TextBlock _ :: rest => handle_blocks rest tool_manager tool_results
  | ToolUseBlock id name input :: rest =>
      tool_results' <-
        try_except
          (tool_result <- manager_execute_tool tool_manager name input ;;
           ret (tool_results ++ [mkToolResult "tool_result" id tool_result]))
          (fun e =>
             ret (tool_results ++
                  [mkToolResult "tool_result" id
                     ("Tool execution failed: " +:+ str e)])) ;;
      handle_blocks rest tool_manager tool_results'
  end.

Definition _handle_tool_execution (claude_response : Response) (tool_manager : TM)
  : M W (list ToolResult) :=
  handle_blocks (content claude_response) tool_manager [].

(** The parameters of a round's call: tools and the automatic tool choice
    are added [if state.tools:]. *)
Definition round_params (self : AIGenerator) (state : ConversationState TM)
    (system_content : string) : ApiParams :=
  if truthy (tools state)
  then mkApiParams (model self) (base_temperature self) (base_max_tokens self)
         (messages state) system_content (tools state)
         (Some (mkToolChoice "auto"))
  else mkApiParams (model self) (base_temperature self) (base_max_tokens self)
         (messages state) system_content None None.

(** The parameters of the call of [_get_final_response]: no tools. *)
Definition final_params (self : AIGenerator) (state : ConversationState TM)
    (system_content : string) : ApiParams :=
  mkApiParams (model self) (base_temperature self) (base_max_tokens self)
    (messages state) system_content None None.

Definition _execute_single_round (self : AIGenerator)
    (state : ConversationState TM) (system_content : string) : M W RoundResponse :=
  try_except
    (claude_response <- client_create (round_params self state system_content) ;;
     match py_and (String.eqb (stop_reason claude_response) "tool_use")
             (tool_manager state) with
     | Some tm =>
         tool_results <- _handle_tool_execution claude_response tm ;;
         ret (mkRoundResponse (Some claude_response) true tool_results None None)
     | None =>
         text <- eval (content_0_text claude_response) ;;
         ret (mkRoundResponse (Some claude_response) false [] (Some text) None)
     end)
    (fun e => ret (mkRoundResponse None false [] None (Some (str e)))).

Definition _should_terminate (round_response : RoundResponse)
    (round_num max_rounds : nat) : bool :=
  if truthy (error round_response) then true
  else if negb (has_tool_calls round_response) then true
  else false.

(** [state.messages.append(...)], twice; reading [.content] of a [None]
    response raises. *)
Definition _prepare_next_round (state : ConversationState TM)
    (round_response : RoundResponse) : M W (ConversationState TM) :=
  match claude_response round_response with
  | None => raise (Exn "'NoneType' object has no attribute 'content'")
  | Some r =>
      let messages1 := messages state ++ [mkMessage "assistant" (Blocks (content r))] in
      let messages2 :=
        if truthy (tool_results round_response)
        then messages1 ++ [mkMessage "user" (Results (tool_results round_response))]
        else messages1 in
      ret (mkConversationState messages2 (round_count state) (max_rounds state)
             (tools state) (tool_manager state))
  end.

Definition _get_final_response (self : AIGenerator)
    (state : ConversationState TM) (system_content : string) : M W string :=
  try_except
    (final_response <- client_create (final_params self state system_content) ;;
     eval (content_0_text final_response))
    (fun e => ret ("Error generating final response: " +:+ str e)).

(** What [generate_response] returns when a round terminates the loop. *)
Definition terminal_answer (round_response : RoundResponse) : string :=
  if truthy (final_text round_response)
  then default "" (final_text round_response)
  else if truthy (error round_response)
  then "Error: " +:+ default "" (error round_response)
  else "No response generated".

(** The [for round_num in range(1, state.max_rounds + 1)] loop, over the
    round numbers still to come, and the call after it. *)
Fixpoint rounds_loop (self : AIGenerator) (rounds : list nat)
    (state : ConversationState TM) (system_content : string) : M W string :=
  match rounds with
  | [] => _get_final_response self state system_content
  | round_num :: rest =>
      let state := mkConversationState (messages state) round_num
                     (max_rounds state) (tools state) (tool_manager state) in
      round_response <- _execute_single_round self state system_content ;;
      if _should_terminate round_response round_num (max_rounds state)
      then ret (terminal_answer round_response)
      else
        state' <- _prepare_next_round state round_response ;;
        rounds_loop self rest state' system_content
  end.

Definition system_content_of (conversation_history : option string) : string :=
  if truthy conversation_history
  then SYSTEM_PROMPT +:+ newline +:+ newline +:+ "Previous conversation:" +:+ newline
       +:+ default "" conversation_history
  else SYSTEM_PROMPT.

Definition initial_state (query : string) (tools : option (list ToolSchema))
    (tool_manager : option TM) : ConversationState TM :=
  mkConversationState [mkMessage "user" (QueryText query)] 0 2 tools tool_manager.

Definition generate_response (self : AIGenerator) (query : string)
    (conversation_history : option string) (tools : option (list ToolSchema))
    (tool_manager : option TM) : M W string :=
  let state := initial_state query tools tool_manager in
  rounds_loop self (seq 1 (max_rounds state)) state
    (system_content_of conversation_history).

(** One invocation, started in world [w] with an empty trace. *)
Definition invoke (self : AIGenerator) (query : string)
    (conversation_history : option string) (tools : option (list ToolSchema))
    (tool_manager : option TM) (w : W) : Res string * Run W :=
  generate_response self query conversation_history tools tool_manager (mkRun w []).

(** *** The loop, read as a relation on runs

    [tool_round] is what executing the tool-use blocks of a response does
    to a world: the results, the events and the world it leaves. *)
Fixpoint tool_round (blocks : list ContentBlock) (tm : TM) (w : W)
  : list ToolResult * list Event * W :=
  match blocks with
  | [] => ([], [], w)
  | TextBlock _ :: rest => tool_round rest tm w
  | ToolUseBlock id name input :: rest =>
      let '(outcome, w1) := execute_tool tm name input w in
      let '(results, events, w2) := tool_round rest tm w1 in
      (mkToolResult "tool_result" id
         (match outcome with
          | Ok tool_result => tool_result
          | Raise e => "Tool execution failed: " +:+ str e
          end) :: results,
       ToolCall name input outcome :: events, w2)
  end.

(** The answer of a round that ended on an exception with message [msg]. *)
Definition error_answer (msg : string) : string :=
  if truthy msg then "Error: " +:+ msg else "No response generated".

(** The answer of a round whose response [r] is taken as the final one. *)
Definition natural_answer (r : Response) : string :=
  match content_0_text r with
  | Ok text => if truthy text then text else "No response generated"
  | Raise e => error_answer (str e)
  end.

(** The answer of the call after the last round. *)
Definition forced_answer (outcome : Res Response) : string :=
  match outcome with
  | Ok r =>
      match content_0_text r with
      | Ok text => text
      | Raise e => "Error generating final response: " +:+ str e
      end
  | Raise e => "Error generating final response: " +:+ str e
  end.

(** The conversation state after a tool round. *)
Definition next_state (state : ConversationState TM) (round_num : nat)
    (r : Response) (results : list ToolResult) : ConversationState TM :=
  mkConversationState
    (messages state ++ mkMessage "assistant" (Blocks (content r)) ::
       (if truthy results then [mkMessage "user" (Results results)] else []))
    round_num (max_rounds state) (tools state) (tool_manager state).

Inductive Rounds (self : AIGenerator) (system_content : string)
  : list nat → ConversationState TM → Run W → string → Run W → Prop :=
| Rounds_forced state st outcome w' :
    create (final_params self state system_content) (world st) = (outcome, w') →
    Rounds self system_content [] state st (forced_answer outcome)
      (mkRun w' (trace st ++
         [ModelCall (final_params self state system_content) outcome]))
| Rounds_error round_num rest state st e w' :
    create (round_params self state system_content) (world st) = (Raise e, w') →
    Rounds self system_content (round_num :: rest) state st (error_answer (str e))
      (mkRun w' (trace st ++
         [ModelCall (round_params self state system_content) (Raise e)]))
| Rounds_natural round_num rest state st r w' :
    create (round_params self state system_content) (world st) = (Ok r, w') →
    py_and (String.eqb (stop_reason r) "tool_use") (tool_manager state) = None →
    Rounds self system_content (round_num :: rest) state st (natural_answer r)
      (mkRun w' (trace st ++
         [ModelCall (round_params self state system_content) (Ok r)]))
| Rounds_tools round_num rest state st r w1 tm results events w2 answer st' :
    create (round_params self state system_content) (world st) = (Ok r, w1) →
    py_and (String.eqb (stop_reason r) "tool_use") (tool_manager state) = Some tm →
    tool_round (content r) tm w1 = (results, events, w2) →
    Rounds self system_content rest (next_state state round_num r results)
      (mkRun w2 (trace st ++
         ModelCall (round_params self state system_content) (Ok r) :: events))
      answer st' →
    Rounds self system_content (round_num :: rest) state st answer st'.

End Orchestration.

(** ** The search tool and the tool registry

    [search_tools.py] and [vector_store.py] are exercised by the tests but
    are not part of the sources at hand; what follows is written from the
    specification (sections 3, 4.1 and 4.2) and the tests. *)

(** [sep.join(parts)]. *)
Fixpoint join (sep : string) (parts : list string) : string :=
  match parts with
  | [] => ""
  | [part] => part
  | part :: rest => part +:+ sep +:+ join sep rest
  end.

Module Retrieval.

(** Modelled from the spec: the metadata mapping of a row of a Search
    Result Set ([vector_store.py] is missing); [lesson_number] may be
    absent. *)
Record Metadata : Type := mkMetadata {
  course_title : string;
  lesson_number : option Z;
  chunk_index : Z
}.

(** Modelled from the spec: the Search Result Set of section 3
    ([SearchResults] of the missing [vector_store.py]): three positionally
    aligned sequences and an optional error. Distances are kept as
    rationals. *)
Record SearchResults : Type := mkSearchResults {
  documents : list string;
  metadata : list Metadata;
  distances : list QArith_base.Q;
  error : option string
}.

(** Modelled from the spec: the rows of a result set, document [i] with
    metadata [i]. *)
Definition rows (results : SearchResults) : list (string * Metadata) :=
  zip (documents results) (metadata results).

(** Modelled from the spec: "empty" is no error and zero rows. *)
Definition is_empty (results : SearchResults) : bool :=
  match documents results with [] => true | _ :: _ => false end.

(** Modelled from the spec: the Source Citation of section 3. *)
Record Source : Type := mkSource {
  text : string;
  url : option string
}.

(** Modelled from the spec: the retrieval collaborator of section 6
    ([vector_store.py] is missing): the search, which reports a problem of
    the backend in the [error] of its result set, and the lesson lookup. *)
Record VectorStore : Type := mkVectorStore {
  search : string → option string → option Z → SearchResults;
  get_lesson_info : string → Z → option string * option string
}.

(** Modelled from the spec: the search tool of the missing
    [search_tools.py], the store it delegates to and the citations of its
    last execution. *)
Record CourseSearchTool : Type := mkCourseSearchTool {
  store : VectorStore;
  last_sources : list Source
}.

(** Modelled from the spec: the header and text of one row (section 4.1). *)
Definition format_block (row : string * Metadata) : string :=
  let '(doc, meta) := row in
  "[" +:+ course_title meta +:+
  (match lesson_number meta with
   | Some n => " - Lesson " +:+ pretty n
   | None => ""
   end) +:+ "]" +:+ newline +:+ doc.

(** Modelled from the spec: the citation of one row (section 4.1). *)
Definition citation (vs : VectorStore) (row : string * Metadata) : Source :=
  let '(_, meta) := row in
  match lesson_number meta with
  | Some n =>
      let '(lesson_title, lesson_url) := get_lesson_info vs (course_title meta) n in
      match lesson_title with
      | Some title => mkSource ("Lesson " +:+ pretty n +:+ ": " +:+ title) lesson_url
      | None => mkSource ("Lesson " +:+ pretty n) lesson_url
      end
  | None => mkSource (course_title meta) None
  end.

(** Modelled from the spec: the filter context of the message for an empty
    result set. *)
Definition filter_info (course_name : option string) (lesson : option Z) : string :=
  (match course_name with
   | Some c => " in course '" +:+ c +:+ "'"
   | None => ""
   end) +:+
  (match lesson with
   | Some n => " in lesson " +:+ pretty n
   | None => ""
   end).

(** Modelled from the spec: the formatted blocks and the citations of a
    result set with rows. *)
Definition _format_results (tool : CourseSearchTool) (results : SearchResults)
  : string * CourseSearchTool :=
  (join (newline +:+ newline) (format_block <$> rows results),
   mkCourseSearchTool (store tool) (citation (store tool) <$> rows results)).

(** Modelled from the spec: [CourseSearchTool.execute] of the missing
    [search_tools.py] (section 4.1); it returns the string for the model
    and the tool with its citations replaced. *)
Definition execute (tool : CourseSearchTool) (query : string)
    (course_name : option string) (lesson : option Z)
  : string * CourseSearchTool :=
  let results := search (store tool) query course_name lesson in
  match error results with
  | Some message => (message, mkCourseSearchTool (store tool) [])
  | None =>
      if is_empty results
      then ("No relevant content found" +:+ filter_info course_name lesson +:+ ".",
            mkCourseSearchTool (store tool) [])
      else _format_results tool results
  end.

(** Modelled from the spec: binding the keyword arguments of a tool call
    to the parameters of [execute]: [query] is required, [course_name] and
    [lesson_number] are optional, anything else is a [TypeError]. *)
Fixpoint bind_arguments (input : ToolInput)
    (query course_name : option string) (lesson : option Z)
  : Res (string * option string * option Z) :=
  match input with
  | [] =>
      match query with
      | Some q => Ok (q, course_name, lesson)
      | None => Raise (Exn "execute() missing 1 required positional argument: 'query'")
      end
  | ("query", VStr q) :: rest => bind_arguments rest (Some q) course_name lesson
  | ("course_name", VStr c) :: rest => bind_arguments rest query (Some c) lesson
  | ("lesson_number", VInt n) :: rest => bind_arguments rest query course_name (Some n)
  | (key, _) :: _ =>
      Raise (Exn ("execute() got an unexpected keyword argument '" +:+ key +:+ "'"))
  end.

(** Modelled from the spec: the interface of a registered tool (section
    4.2 and the design notes): a name, an execution on keyword arguments,
    and its citations. *)
Class Tool (T : Type) : Type := mkTool {
  tool_name : T → string;
  tool_execute : T → ToolInput → Res string * T;
  tool_sources : T → list Source;
  tool_reset : T → T
}.

(** Modelled from the spec: the search tool as a registered tool, under the
    name the tests look it up by. *)
#[global] Instance CourseSearchTool_Tool : Tool CourseSearchTool := {|
  tool_name := fun _ => "search_course_content";
  tool_execute := fun tool input =>
    match bind_arguments input None None None with
    | Ok (query, course_name, lesson) =>
        let '(output, tool') := execute tool query course_name lesson in
        (Ok output, tool')
    | Raise e => (Raise e, tool)
    end;
  tool_sources := last_sources;
  tool_reset := fun tool => mkCourseSearchTool (store tool) []
|}.

Section Registry.
Context {T : Type} `{Tool T}.

(** Modelled from the spec: [ToolManager.register_tool] of the missing
    [search_tools.py]: the last registration of a name wins. *)
Definition register_tool (tool : T) (registry : gmap string T) : gmap string T :=
  <[tool_name tool := tool]> registry.

(** Modelled from the spec: [ToolManager.execute_tool] of the missing
    [search_tools.py] (section 4.2): an unknown name is answered by a
    string, a known one by the tool's own result; the tool object keeps
    what the execution did to it. *)
Definition execute_tool (name : string) (input : ToolInput)
    (registry : gmap string T) : Res string * gmap string T :=
  match registry !! name with
  | None => (Ok ("Tool '" +:+ name +:+ "' not found"), registry)
  | Some tool =>
      let '(outcome, tool') := tool_execute tool input in
      (outcome, <[name := tool']> registry)
  end.

(** Modelled from the spec: [ToolManager.reset_sources]. *)
Definition reset_sources (registry : gmap string T) : gmap string T :=
  tool_reset <$> registry.
End Registry.

End Retrieval.


(** ** The loop driven by a registry

    The world of an invocation whose tool manager is a registry: the world
    of the model, and the registry with its tools. There is one registry, so
    its handle carries nothing. *)
Module Assembly.
Section Assembly.
Context {MW T : Type} `{Retrieval.Tool T}.
Variable model : ApiParams → MW → Res Response * MW.

Definition create (p : ApiParams) (w : MW * gmap string T)
  : Res Response * (MW * gmap string T) :=
  let '(outcome, mw) := model p w.1 in (outcome, (mw, w.2)).

Definition execute_tool (_ : unit) (name : string) (input : ToolInput)
    (w : MW * gmap string T) : Res string * (MW * gmap string T) :=
  let '(outcome, registry) := Retrieval.execute_tool name input w.2 in
  (outcome, (w.1, registry)).

End Assembly.
End Assembly.

(** ** Scripted collaborators

    The tests drive the loop with mocks: a client that hands out a list of
    outcomes one call after the other ([side_effect]) and raises
    [StopIteration()], whose message is empty, once the list is used up,
    and a tool manager
    whose [execute_tool] has one fixed outcome ([return_value], or a
    [side_effect] that raises). *)
Module Mock.

Definition World : Type := list (Res Response).

Definition create (_ : ApiParams) (w : World) : Res Response * World :=
  match w with
  | outcome :: rest => (outcome, rest)
  | [] => (Raise (Exn ""), [])
  end.

Definition ToolManager : Type := Res string.

Definition execute_tool (tm : ToolManager) (_ : string) (_ : ToolInput) (w : World)
  : Res string * World := (tm, w).

Definition generator : AIGenerator := new_AIGenerator "claude-sonnet-4-20250514".

Definition search_schema : ToolSchema :=
  mkToolSchema "search_course_content" "Search course materials" ["query"].

Definition search_block (id query : string) : ContentBlock :=
  ToolUseBlock id "search_course_content" [("query", VStr query)].

Definition tool_use_response (id query : string) : Response :=
  mkResponse [search_block id query] "tool_use".

Definition text_response (text : string) : Response :=
  mkResponse [TextBlock text] "end_turn".

Definition prompt : string := "You are an AI assistant specialized in course materials.".

(** Both rounds ask for a search, the forced call answers. *)
Definition two_searches : World :=
  [Ok (tool_use_response "tool_1" "first search");
   Ok (tool_use_response "tool_2" "second search");
   Ok (text_response "Final synthesized response")].

(** Both rounds ask for a search, the forced call fails. *)
Definition final_call_fails : World :=
  [Ok (tool_use_response "tool_1" "first search");
   Ok (tool_use_response "tool_2" "second search");
   Raise (Exn "API rate limit exceeded")].

(** The first round asks for a search, the call of the second round fails. *)
Definition second_round_fails : World :=
  [Ok (tool_use_response "tool_1" "test query");
   Raise (Exn "API rate limit exceeded")].

(** A response cut off at the token limit, inside a tool-use block. *)
Definition truncated_response : Response :=
  mkResponse [search_block "tool_1" "first search"] "max_tokens".

(** A response that opens with an empty text before its tool-use block. *)
Definition empty_text_then_tool : Response :=
  mkResponse [TextBlock ""; search_block "tool_1" "first search"] "tool_use".

(** A response with two requests, the first of which will fail. *)
Definition two_requests : Response :=
  mkResponse [search_block "tool_123" "first query";
              search_block "tool_456" "second query"] "tool_use".

(** A store that answers every search with [results], and the result sets
    of the test fixtures. *)
Definition store_of (results : Retrieval.SearchResults) : Retrieval.VectorStore :=
  Retrieval.mkVectorStore (fun _ _ _ => results)
    (fun _ n => (Some "Introduction to ML", Some "https://example.com/lesson1")).

Definition results_success : Retrieval.SearchResults :=
  Retrieval.mkSearchResults
    ["Machine learning is a subset of artificial intelligence.";
     "Linear regression is a statistical method."]
    [Retrieval.mkMetadata "Introduction to Machine Learning" (Some 1%Z) 0;
     Retrieval.mkMetadata "Introduction to Machine Learning" None 1]
    [QArith_base.Qmake 1 10; QArith_base.Qmake 2 10] None.

Definition results_empty : Retrieval.SearchResults :=
  Retrieval.mkSearchResults [] [] [] None.

Definition results_error : Retrieval.SearchResults :=
  Retrieval.mkSearchResults [] [] [] (Some "Database connection failed").

End Mock.


(** ** Vocabulary of the statements *)

(** A model outcome that asks for tools: a response whose stop reason is
    ["tool_use"]. *)
Definition requests_tools (outcome : Res Response) : bool :=
  match outcome with
  | Ok r => String.eqb (stop_reason r) "tool_use"
  | Raise _ => false
  end.

(** A call that offers the tool schemas [offered] with the automatic tool
    choice, and a call that offers no tool at all. *)
Definition tool_bearing (offered : option (list ToolSchema)) (p : ApiParams) : Prop :=
  api_tools p = offered ∧ api_tool_choice p = Some (mkToolChoice "auto").

Definition tool_free (p : ApiParams) : Prop :=
  api_tools p = None ∧ api_tool_choice p = None.

(** The tool-use requests of a content list, in order. *)
Definition tool_requests (blocks : list ContentBlock) : list (string * string * ToolInput) :=
  omap (fun b => match b with
                 | ToolUseBlock id name input => Some (id, name, input)
                 | TextBlock _ => None
                 end) blocks.

(** The outcomes of the tool calls of a trace, in order. *)
Fixpoint tool_outcomes (tr : list Event) : list (Res string) :=
  match tr with
  | [] => []
  | ModelCall _ _ :: tr => tool_outcomes tr
  | ToolCall _ _ outcome :: tr => outcome :: tool_outcomes tr
  end.

(** The tool calls a model outcome asks for: those of the tool-use blocks of
    a response whose stop reason is ["tool_use"]. *)
Definition requested_calls (outcome : Res Response) : list (string * ToolInput) :=
  match outcome with
  | Ok r =>
      if String.eqb (stop_reason r) "tool_use"
      then (fun rq => (rq.1.2, rq.2)) <$> tool_requests (content r)
      else []
  | Raise _ => []
  end.

(** The roles of a conversation that opens with the user and has seen [n]
    exchanges of an assistant turn and a user turn. *)
Fixpoint turns (n : nat) : list string :=
  match n with
  | 0 => ["user"]
  | S n => turns n ++ ["assistant"; "user"]
  end.

(** [content_block.type]. *)
Definition block_type (b : ContentBlock) : string :=
  match b with
  | TextBlock _ => "text"
  | ToolUseBlock _ _ _ => "tool_use"
  end.

(** * Facts about the loop *)

Lemma append_assoc (s1 s2 s3 : string) : (s1 +:+ s2) +:+ s3 = s1 +:+ s2 +:+ s3.
Proof.
  induction s1 as [|c s1 IH]; [done|].
  change (String c ((s1 +:+ s2) +:+ s3) = String c (s1 +:+ s2 +:+ s3)).
  by f_equal.
Qed.

Lemma model_outcomes_app (tr1 tr2 : list Event) :
  model_outcomes (tr1 ++ tr2) = model_outcomes tr1 ++ model_outcomes tr2.
Proof. induction tr1 as [|[p o|n i o] tr1 IH]; simpl; by rewrite ?IH. Qed.

Lemma model_calls_app (tr1 tr2 : list Event) :
  model_calls (tr1 ++ tr2) = model_calls tr1 ++ model_calls tr2.
Proof. induction tr1 as [|[p o|n i o] tr1 IH]; simpl; by rewrite ?IH. Qed.

Lemma tool_calls_app (tr1 tr2 : list Event) :
  tool_calls (tr1 ++ tr2) = tool_calls tr1 ++ tool_calls tr2.
Proof. induction tr1 as [|[p o|n i o] tr1 IH]; simpl; by rewrite ?IH. Qed.

Lemma tool_events_no_model (events : list Event) :
  forallb is_tool_call events = true →
  model_outcomes events = [] ∧ model_calls events = [].
Proof.
  induction events as [|[p o|n i o] events IH]; simpl; intros Hall.
  - done.
  - discriminate.
  - by apply IH.
Qed.

Section OrchestrationFacts.
Context {W TM : Type}.
Variable create : ApiParams → W → Res Response * W.
Variable execute_tool : TM → string → ToolInput → W → Res string * W.
Variable SYSTEM_PROMPT : string.

Local Abbreviation tool_round := (tool_round execute_tool).
Local Abbreviation handle_blocks := (handle_blocks execute_tool).
Local Abbreviation rounds_loop := (rounds_loop create execute_tool).
Local Abbreviation Rounds := (Rounds create execute_tool).

(** The loop over the blocks computes [tool_round] and never raises. *)
Lemma handle_blocks_tool_round blocks tm acc st :
  handle_blocks blocks tm acc st =
    let '(results, events, w') := tool_round blocks tm (world st) in
    (Ok (acc ++ results), mkRun w' (trace st ++ events)).
Proof.
  revert acc st.
  induction blocks as [|[text|id name input] rest IH]; intros acc [w tr]; simpl.
  - by rewrite !app_nil_r.
  - apply IH.
  - unfold bind, try_except, manager_execute_tool, external, ret; simpl.
    destruct (execute_tool tm name input w) as [[tool_result|e] w1]; simpl;
      rewrite IH; simpl;
      destruct (tool_round rest tm w1) as [[results events] w2];
      by rewrite <- !app_assoc.
Qed.

Lemma tool_round_app blocks1 blocks2 tm w :
  tool_round (blocks1 ++ blocks2) tm w =
    let '(results1, events1, w1) := tool_round blocks1 tm w in
    let '(results2, events2, w2) := tool_round blocks2 tm w1 in
    (results1 ++ results2, events1 ++ events2, w2).
Proof.
  revert w.
  induction blocks1 as [|[text|id name input] rest IH]; intros w; simpl.
  - by destruct (tool_round blocks2 tm w) as [[? ?] ?].
  - apply IH.
  - destruct (execute_tool tm name input w) as [outcome w1].
    rewrite IH.
    destruct (tool_round rest tm w1) as [[results1 events1] w2].
    by destruct (tool_round blocks2 tm w2) as [[? ?] ?].
Qed.

(** One result per request, with the request's id, in the order of the
    requests; one tool call per request, with its name and input. *)
Lemma tool_round_aligned blocks tm w results events w' :
  tool_round blocks tm w = (results, events, w') →
  tool_use_id <$> results = (fun rq => rq.1.1) <$> tool_requests blocks ∧
  tool_calls events = (fun rq => (rq.1.2, rq.2)) <$> tool_requests blocks ∧
  result_type <$> results = replicate (length (tool_requests blocks)) "tool_result" ∧
  forallb is_tool_call events = true.
Proof.
  revert w results events.
  induction blocks as [|[text|id name input] rest IH]; intros w results events; simpl.
  - by intros [= <- <- <-].
  - apply IH.
  - destruct (execute_tool tm name input w) as [outcome w1].
    destruct (tool_round rest tm w1) as [[results1 events1] w2] eqn:Hrest.
    intros [= <- <- <-]. destruct (IH _ _ _ Hrest) as (Hid & Hcalls & Hty & Hev).
    simpl. repeat split; [by f_equal..|done].
Qed.

Lemma tool_round_length blocks tm w results events w' :
  tool_round blocks tm w = (results, events, w') →
  length results = length (tool_requests blocks) ∧
  length events = length (tool_requests blocks).
Proof.
  intros Hround. destruct (tool_round_aligned _ _ _ _ _ _ Hround) as (Hid & Hcalls & _ & Hev).
  split.
  - by rewrite <- (length_fmap tool_use_id), Hid, length_fmap.
  - assert (length (tool_calls events) = length events) as <-.
    { clear -Hev. induction events as [|[p o|n i o] events IH]; simpl in *;
        [done|discriminate|]. f_equal. by apply IH. }
    by rewrite Hcalls, length_fmap.
Qed.

Lemma round_params_round_count self (state : ConversationState TM) n sys :
  round_params self
    (mkConversationState (messages state) n (max_rounds state) (tools state)
       (tool_manager state)) sys
  = round_params self state sys.
Proof. reflexivity. Qed.

(** The call after the last round returns a string, whatever the model does. *)
Lemma get_final_response_forced self (state : ConversationState TM) sys st :
  _get_final_response create self state sys st =
    let '(outcome, w') := create (final_params self state sys) (world st) in
    (Ok (forced_answer outcome),
     mkRun w' (trace st ++ [ModelCall (final_params self state sys) outcome])).
Proof.
  unfold _get_final_response, try_except, bind, client_create, external, eval, ret.
  destruct (create _ _) as [[r|e] w']; simpl; [|done].
  by destruct (content_0_text r).
Qed.

(** Every run of the loop returns a string, and is a run of [Rounds]. *)
Lemma rounds_loop_Rounds self sys rounds state st :
  ∃ answer st',
    rounds_loop self rounds state sys st = (Ok answer, st') ∧
    Rounds self sys rounds state st answer st'.
Proof.
  revert state st.
  induction rounds as [|round_num rest IH]; intros state st.
  - simpl. rewrite get_final_response_forced.
    destruct (create _ _) as [outcome w'] eqn:Hcreate.
    eexists _, _. split; [done|]. by constructor.
  - simpl.
    unfold bind at 1, _execute_single_round, try_except, bind at 1,
      client_create, external.
    rewrite round_params_round_count. simpl tool_manager.
    destruct (create _ _) as [[r|e] w1] eqn:Hcreate; simpl.
    + destruct (py_and _ _) as [tm|] eqn:Hand.
      * unfold bind at 1, _handle_tool_execution.
        rewrite handle_blocks_tool_round. simpl.
        destruct (tool_round (content r) tm w1) as [[results events] w2] eqn:Hround.
        simpl. unfold bind at 1. simpl.
        match goal with
        | |- context [rounds_loop self rest ?s sys ?t] =>
            destruct (IH (next_state state round_num r results) t)
              as (answer & st' & Hrun & Hrounds);
            replace s with (next_state state round_num r results)
        end.
        2:{ unfold next_state. simpl. f_equal.
            destruct results; simpl; by rewrite <- ?app_assoc. }
        eexists _, _. split; [exact Hrun|].
        eapply Rounds_tools; eauto.
        by rewrite <- app_assoc in Hrounds.
      * unfold bind, eval, ret. unfold _should_terminate, terminal_answer.
        eexists _, _. split.
        2:{ eapply Rounds_natural; eauto. }
        unfold natural_answer, error_answer.
        destruct (content_0_text r) as [text|[msg]]; simpl.
        -- by destruct text.
        -- by destruct msg.
    + unfold ret, _should_terminate, terminal_answer, error_answer.
      eexists _, _. split; [|by eapply Rounds_error].
      destruct e as [msg]. simpl. by destruct msg.
Qed.

(** An invocation is a run of [Rounds] over the rounds 1 and 2. *)
Lemma invoke_Rounds self query history offered tm w :
  ∃ answer st',
    invoke create execute_tool SYSTEM_PROMPT self query history offered tm w
      = (Ok answer, st') ∧
    Rounds self (system_content_of SYSTEM_PROMPT history) [1; 2]
      (initial_state query offered tm) (mkRun w []) answer st'.
Proof. apply rounds_loop_Rounds. Qed.

Lemma tool_round_silent blocks tm w results events w' :
  tool_round blocks tm w = (results, events, w') →
  model_outcomes events = [] ∧ model_calls events = [].
Proof.
  intros Hround. apply tool_events_no_model.
  by destruct (tool_round_aligned _ _ _ _ _ _ Hround) as (_ & _ & _ & ?).
Qed.

Lemma py_and_Some {A} (a : bool) (b : option A) (x : A) :
  py_and a b = Some x ↔ a = true ∧ b = Some x.
Proof. destruct a; simpl; intuition congruence. Qed.

Lemma py_and_None {A} (a : bool) (b : option A) :
  py_and a b = None ↔ a = false ∨ b = None.
Proof. destruct a; simpl; intuition congruence. Qed.

Lemma round_params_tools self (state : ConversationState TM) sys :
  truthy (tools state) = true →
  tool_bearing (tools state) (round_params self state sys).
Proof. unfold round_params. by intros ->. Qed.

Lemma final_params_tool_free self (state : ConversationState TM) sys :
  tool_free (final_params self state sys).
Proof. done. Qed.

Lemma round_params_messages self (state : ConversationState TM) sys :
  api_messages (round_params self state sys) = messages state.
Proof. unfold round_params. by destruct (truthy (tools state)). Qed.

(** Whatever the rounds still to come, the next thing the loop does is a
    model call on the messages of the conversation state. *)
Lemma Rounds_first_call self sys rounds state st answer st' :
  Rounds self sys rounds state st answer st' →
  ∃ p outcome tr,
    trace st' = trace st ++ ModelCall p outcome :: tr ∧
    api_messages p = messages state.
Proof.
  destruct 1 as [state st outcome w' Hcreate
                |n rest state st e w' Hcreate
                |n rest state st r w' Hcreate Hand
                |n rest state st r w1 tm results events w2 answer st' Hcreate Hand
                   Hround Hrest].
  - by eexists _, _, [].
  - eexists _, _, []. split; [done|]. apply round_params_messages.
  - eexists _, _, []. split; [done|]. apply round_params_messages.
  - clear Hround. revert Hrest. generalize (next_state state n r results).
    intros state' Hrest.
    assert (∃ tr, trace st' = trace st ++
              ModelCall (round_params self state sys) (Ok r) :: tr) as [tr ->].
    { remember (mkRun w2 (trace st ++ ModelCall (round_params self state sys) (Ok r)
                            :: events)) as st1 eqn:Hst1.
      assert (∃ tr1, trace st1 = trace st ++
                ModelCall (round_params self state sys) (Ok r) :: tr1) as Hpre
        by (subst st1; by eexists).
      clear Hst1 Hcreate Hand. revert Hpre.
      induction Hrest; intros [tr1 Hpre]; simpl; rewrite ?Hpre, <- ?app_assoc;
        simpl; try by eexists.
      apply IHHrest. simpl. rewrite Hpre, <- app_assoc. simpl. by eexists. }
    eexists _, _, _. split; [done|]. apply round_params_messages.
Qed.

(** A tool round hands over to the rest of the loop. *)
Lemma rounds_loop_tool_round self sys round_num rest state st r w1 tm :
  create (round_params self state sys) (world st) = (Ok r, w1) →
  py_and (String.eqb (stop_reason r) "tool_use") (tool_manager state) = Some tm →
  rounds_loop self (round_num :: rest) state sys st =
    let '(results, events, w2) := tool_round (content r) tm w1 in
    rounds_loop self rest (next_state state round_num r results) sys
      (mkRun w2 (trace st ++ ModelCall (round_params self state sys) (Ok r) :: events)).
Proof.
  intros Hcreate Hand. simpl.
  unfold bind at 1, _execute_single_round, try_except, bind at 1,
    client_create, external.
  rewrite round_params_round_count, Hcreate. simpl. rewrite Hand.
  unfold bind at 1, _handle_tool_execution.
  rewrite handle_blocks_tool_round. simpl.
  destruct (tool_round (content r) tm w1) as [[results events] w2].
  simpl. unfold bind at 1. simpl.
  unfold next_state. destruct results; simpl; by rewrite <- !app_assoc.
Qed.

End OrchestrationFacts.

(** * The claims *)

(** Every [Rounds] hypothesis over a list of known shape is taken apart. *)
Ltac invert_rounds :=
  repeat match goal with
  | H : Rounds _ _ _ _ [] _ _ _ _ |- _ => inversion H; subst; try clear H
  | H : Rounds _ _ _ _ (_ :: _) _ _ _ _ |- _ => inversion H; subst; try clear H
  end.

(** The events of a tool round hold no model call. *)
Ltac silence_tools :=
  repeat match goal with
  | H : tool_round _ _ _ _ = (_, ?events, _) |- _ =>
      lazymatch goal with
      | _ : model_outcomes events = [] |- _ => fail
      | _ => destruct (tool_round_silent _ _ _ _ _ _ _ H)
      end
  end.

Ltac trace_simpl :=
  repeat (progress (cbn [trace world model_outcomes model_calls tool_calls app] in *;
                    rewrite ?model_outcomes_app, ?model_calls_app, ?tool_calls_app in * )).

Ltac silence_trace :=
  silence_tools; trace_simpl;
  repeat match goal with
  | H : model_outcomes ?ev = [] |- _ => rewrite H in *; clear H
  | H : model_calls ?ev = [] |- _ => rewrite H in *; clear H
  end; cbn [app] in *.

Ltac split_py_and :=
  repeat match goal with
  | H : py_and _ _ = None |- _ => apply py_and_None in H as [H|H]
  | H : py_and _ _ = Some _ |- _ => apply py_and_Some in H as [? ?]
  end.

Section Claims.
Context {W TM : Type}.
Variable create : ApiParams → W → Res Response * W.
Variable execute_tool : TM → string → ToolInput → W → Res string * W.
Variable SYSTEM_PROMPT : string.

Local Abbreviation invoke := (invoke create execute_tool SYSTEM_PROMPT).

(** C1 (amended), the round bound. No invocation makes more than
    [max_rounds + 1 = 3] model calls. When a tool manager is given and a
    non-empty list of tools is offered, and each of the first two model
    responses of the invocation requests tool use, the model is called
    exactly three times: twice with the tool schemas and the automatic tool
    choice, then once, for the forced final answer, with neither. *)
Theorem round_bound self query history offered (tool_manager : option TM) w :
  let run := (invoke self query history offered tool_manager w).2 in
  length (model_calls (trace run)) ≤ 3 ∧
  (is_Some tool_manager →
   truthy offered = true →
   forallb requests_tools (take 2 (model_outcomes (trace run))) = true →
   ∃ p1 p2 p3,
     model_calls (trace run) = [p1; p2; p3] ∧
     tool_bearing offered p1 ∧ tool_bearing offered p2 ∧ tool_free p3).
Proof.
  destruct (invoke_Rounds create execute_tool SYSTEM_PROMPT
              self query history offered tool_manager w)
    as (answer & st' & -> & Hrounds).
  simpl. invert_rounds; silence_tools; trace_simpl.
  all: repeat match goal with
       | H : model_outcomes ?e = [] |- _ => rewrite H in *; clear H
       | H : model_calls ?e = [] |- _ => rewrite H in *; clear H
       end; cbn [app length] in *.
  all: split; [lia|].
  all: intros [tm' ->] Hoffered Hall; simpl in *.
  all: repeat match goal with
       | H : py_and _ _ = None |- _ => apply py_and_None in H as [H|H]
       | H : py_and _ _ = Some _ |- _ => apply py_and_Some in H as [? ?]
       end; simplify_eq/=.
  all: try (exfalso;
            repeat match goal with
                   | H : String.eqb _ _ = false |- _ => rewrite H in Hall
                   end;
            simpl in Hall; rewrite ?andb_false_r in Hall; discriminate).
  eexists _, _, _. split; [done|].
  split_and!; try (by apply round_params_tools); done.
Qed.

(** C2 (amended), model-call failures. An invocation always returns a
    string, never an exception. When a model call raises, that call is the
    last thing the invocation does: the world is left as the failing call
    left it, the tool executions of earlier rounds stay in the trace. The
    string returned is ["Error: <message>"] when the call of a round raises
    with a non-empty message, and ["Error generating final response:
    <message>"] when the forced final call raises. *)
Theorem model_failure_reported self query history offered (tool_manager : option TM) w :
  let result := (invoke self query history offered tool_manager w).1 in
  let run := (invoke self query history offered tool_manager w).2 in
  (∃ answer, result = Ok answer) ∧
  ∀ i e,
    model_outcomes (trace run) !! i = Some (Raise e) →
    (∃ tr p w0,
       trace run = tr ++ [ModelCall p (Raise e)] ∧
       create p w0 = (Raise e, world run)) ∧
    (i < 2 → str e ≠ "" → result = Ok ("Error: " +:+ str e)) ∧
    (i = 2 → result = Ok ("Error generating final response: " +:+ str e)).
Proof.
  destruct (invoke_Rounds create execute_tool SYSTEM_PROMPT
              self query history offered tool_manager w)
    as (answer & st' & -> & Hrounds).
  simpl. split; [by eexists|]. intros i e.
  invert_rounds; silence_tools; trace_simpl.
  all: repeat match goal with
       | H : model_outcomes ?ev = [] |- _ => rewrite H in *; clear H
       | H : model_calls ?ev = [] |- _ => rewrite H in *; clear H
       end; cbn [app] in *.
  all: destruct i as [|[|[|i]]]; simpl; intros Hi; simplify_eq.
  all: split_and!; try lia.
  all: try (intros _ Hmsg; unfold error_answer; destruct e as [[|c msg]]; simpl in *;
            congruence).
  all: try (intros _; reflexivity).
  all: repeat match goal with
       | |- ∃ tr p w0, ?t ++ ?l = _ ∧ _ =>
           lazymatch l with
           | [_] => eexists t, _, _; split; [reflexivity|eassumption]
           | _ :: ?l' => rewrite (cons_middle _ t l'), (app_assoc t)
           | ?l1 ++ ?l2 => rewrite (app_assoc t l1 l2)
           end
       | |- ∃ tr p w0, [?x] = _ ∧ _ =>
           eexists [], _, _; split; [reflexivity|eassumption]
       | |- ∃ tr p w0, ?x :: ?l = _ ∧ _ => change (x :: l) with ([x] ++ l)
       end.
Qed.

(** C3 (amended), natural termination. If the first model response has a
    stop reason other than ["tool_use"], exactly one model call is made and
    no tool is executed; the string returned is the text of the response's
    first block when that text is not empty, and ["No response generated"]
    when it is empty. *)
Theorem natural_termination self query history offered (tool_manager : option TM) w r :
  let result := (invoke self query history offered tool_manager w).1 in
  let run := (invoke self query history offered tool_manager w).2 in
  model_outcomes (trace run) !! 0 = Some (Ok r) →
  String.eqb (stop_reason r) "tool_use" = false →
  length (model_calls (trace run)) = 1 ∧
  tool_calls (trace run) = [] ∧
  ∀ text rest,
    content r = TextBlock text :: rest →
    result = Ok (if truthy text then text else "No response generated").
Proof.
  destruct (invoke_Rounds create execute_tool SYSTEM_PROMPT
              self query history offered tool_manager w)
    as (answer & st' & -> & Hrounds).
  simpl. intros Hfirst Hstop.
  invert_rounds; split_py_and; silence_trace; simplify_eq/=; try congruence.
  all: split_and!; try done.
  all: intros text rest Hcontent; unfold natural_answer, content_0_text;
    by rewrite Hcontent.
Qed.

(** C9 (amended), no tool manager. When [tool_manager] is [None], the model
    is called once and no tool is executed, whatever the stop reason of the
    response: the string returned is the text of its first block when that
    text is not empty, ["No response generated"] when it is empty, and
    ["Error: <message>"] when reading the text raises. *)
Theorem without_tool_manager self query history offered w r :
  let result := (invoke self query history offered (@None TM) w).1 in
  let run := (invoke self query history offered (@None TM) w).2 in
  length (model_calls (trace run)) = 1 ∧
  tool_calls (trace run) = [] ∧
  (model_outcomes (trace run) = [Ok r] →
   result = Ok (match content_0_text r with
                | Ok text => if truthy text then text else "No response generated"
                | Raise e => "Error: " +:+ str e
                end)).
Proof.
  destruct (invoke_Rounds create execute_tool SYSTEM_PROMPT
              self query history offered None w)
    as (answer & st' & -> & Hrounds).
  simpl. invert_rounds; split_py_and; silence_trace; simplify_eq/=.
  all: split_and!; try done.
  all: intros [= ->]; unfold natural_answer, content_0_text.
  all: by destruct (content r) as [|[text|id name input] rest].
Qed.

(** C10, the answer of a round without text. A round result without error
    and without tool calls whose final text is empty or absent ends the loop
    with ["No response generated"]; so an invocation whose last model call,
    in one of the two rounds, answered with an empty text returns that
    string. *)
Theorem no_response_generated self query history offered (tool_manager : option TM) w r :
  let result := (invoke self query history offered tool_manager w).1 in
  let run := (invoke self query history offered tool_manager w).2 in
  (∀ round_response round_num max_rounds,
     error round_response = None →
     has_tool_calls round_response = false →
     final_text round_response = None ∨ final_text round_response = Some "" →
     _should_terminate round_response round_num max_rounds = true ∧
     terminal_answer round_response = "No response generated") ∧
  (last (model_outcomes (trace run)) = Some (Ok r) →
   length (model_outcomes (trace run)) ≤ 2 →
   content_0_text r = Ok "" →
   result = Ok "No response generated").
Proof.
  split.
  { intros rr n m Herr Htools Htext.
    unfold _should_terminate, terminal_answer. rewrite Herr, Htools.
    by destruct Htext as [-> | ->]. }
  destruct (invoke_Rounds create execute_tool SYSTEM_PROMPT
              self query history offered tool_manager w)
    as (answer & st' & -> & Hrounds).
  simpl. intros Hlast Hlen Htext.
  invert_rounds; silence_trace; simpl in *; simplify_eq/=; try lia.
  all: unfold natural_answer; by rewrite Htext.
Qed.

(** C4 (amended), result alignment. In a round with a tool manager whose
    model response has the stop reason ["tool_use"] and holds [k ≥ 1]
    tool-use blocks, the loop executes the [k] requested calls in order and
    produces exactly [k] tool results, the [i]-th with the id of the [i]-th
    request; the next model call is made on the messages so far followed by
    the assistant message with the response's blocks and one user message
    with those [k] results. *)
Theorem result_alignment self sys round_num rest (state : ConversationState TM)
    st tm r w1 :
  tool_manager state = Some tm →
  create (round_params self state sys) (world st) = (Ok r, w1) →
  stop_reason r = "tool_use" →
  1 ≤ length (tool_requests (content r)) →
  ∃ results events p outcome tr,
    length results = length (tool_requests (content r)) ∧
    tool_use_id <$> results = (fun rq => rq.1.1) <$> tool_requests (content r) ∧
    tool_calls events = (fun rq => (rq.1.2, rq.2)) <$> tool_requests (content r) ∧
    forallb is_tool_call events = true ∧
    trace (rounds_loop create execute_tool self (round_num :: rest) state sys st).2 =
      trace st ++ ModelCall (round_params self state sys) (Ok r)
        :: events ++ ModelCall p outcome :: tr ∧
    api_messages p =
      messages state ++ [mkMessage "assistant" (Blocks (content r));
                         mkMessage "user" (Results results)].
Proof.
  intros Htm Hcreate Hstop Hk.
  assert (py_and (String.eqb (stop_reason r) "tool_use") (tool_manager state)
          = Some tm) as Hand by (by rewrite Hstop, Htm).
  rewrite (rounds_loop_tool_round _ _ _ _ _ _ _ _ _ _ _ Hcreate Hand).
  destruct (tool_round execute_tool (content r) tm w1)
    as [[results events] w2] eqn:Hround.
  destruct (tool_round_aligned _ _ _ _ _ _ _ Hround) as (Hids & Hcalls & _ & Hev).
  destruct (tool_round_length _ _ _ _ _ _ _ Hround) as [Hlen _].
  destruct (rounds_loop_Rounds create execute_tool self sys rest
              (next_state state round_num r results)
              (mkRun w2 (trace st ++ ModelCall (round_params self state sys) (Ok r)
                           :: events)))
    as (answer & st' & Hrun & Hrounds).
  rewrite Hrun. simpl.
  destruct (Rounds_first_call _ _ _ _ _ _ _ _ _ Hrounds)
    as (p & outcome & tr & Htrace & Hmessages).
  exists results, events, p, outcome, tr. split_and!; try done.
  - rewrite Htrace. simpl. by rewrite <- app_assoc.
  - rewrite Hmessages. simpl. destruct results; [simpl in Hlen; lia|done].
Qed.

(** C5, failing tool calls. When the execution of a tool call raises, the
    exception does not leave the loop over the blocks: the call gets the
    result ["Tool execution failed: <message>"] under its own id, the blocks
    after it are handled as if nothing had happened, each request among them
    being executed, and the round ends as a tool round, without error. *)
Theorem tool_failure_contained self sys (state : ConversationState TM) st tm r w1
    before id name input after results_before st_before e w_failed :
  tool_manager state = Some tm →
  create (round_params self state sys) (world st) = (Ok r, w1) →
  stop_reason r = "tool_use" →
  content r = before ++ ToolUseBlock id name input :: after →
  handle_blocks execute_tool before tm []
    (mkRun w1 (trace st ++ [ModelCall (round_params self state sys) (Ok r)]))
    = (Ok results_before, st_before) →
  execute_tool tm name input (world st_before) = (Raise e, w_failed) →
  ∃ results_after st_after,
    handle_blocks execute_tool after tm []
      (mkRun w_failed (trace st_before ++ [ToolCall name input (Raise e)]))
      = (Ok results_after, st_after) ∧
    length results_after = length (tool_requests after) ∧
    tool_calls (trace st_after) =
      tool_calls (trace st_before) ++ (name, input) ::
        ((fun rq => (rq.1.2, rq.2)) <$> tool_requests after) ∧
    _execute_single_round create execute_tool self state sys st =
      (Ok (mkRoundResponse (Some r) true
             (results_before ++
              mkToolResult "tool_result" id ("Tool execution failed: " +:+ str e)
              :: results_after)
             None None),
       st_after).
Proof.
  intros Htm Hcreate Hstop Hcontent Hbefore Hexec.
  rewrite handle_blocks_tool_round in Hbefore. simpl in Hbefore.
  destruct (tool_round execute_tool before tm w1)
    as [[results1 events1] w_before] eqn:Hround1.
  injection Hbefore as <- <-. simpl in Hexec.
  rewrite handle_blocks_tool_round. simpl.
  destruct (tool_round execute_tool after tm w_failed)
    as [[results2 events2] w2] eqn:Hround2.
  eexists _, _. split; [reflexivity|]. split.
  { by destruct (tool_round_length _ _ _ _ _ _ _ Hround2) as [-> _]. }
  split.
  { destruct (tool_round_aligned _ _ _ _ _ _ _ Hround2) as (_ & Hcalls & _).
    simpl. rewrite !tool_calls_app, Hcalls. simpl. by rewrite <- !app_assoc. }
  unfold _execute_single_round, try_except, bind at 1, client_create, external.
  rewrite Hcreate. simpl. rewrite Hstop, Htm. simpl.
  unfold bind, _handle_tool_execution. rewrite handle_blocks_tool_round.
  rewrite Hcontent, tool_round_app. simpl. rewrite Hround1. simpl.
  rewrite Hexec, Hround2. simpl. unfold ret.
  by rewrite <- !app_assoc.
Qed.

End Claims.

(** ** Claims on the search tool and the registry *)

Section RetrievalClaims.
Import Retrieval.

Lemma execute_keeps_store tool query course_name lesson :
  store (execute tool query course_name lesson).2 = store tool.
Proof.
  unfold execute. destruct (error _); [done|]. by destruct (is_empty _).
Qed.

Lemma is_empty_rows results : is_empty results = true → rows results = [].
Proof. unfold is_empty, rows. by destruct (documents results). Qed.

Lemma append_empty_r (s : string) : s +:+ "" = s.
Proof.
  induction s as [|c s IH]; [done|].
  change (String c (s +:+ "") = String c s). by f_equal.
Qed.

(** [join] puts the separator before every part but the first. *)
Lemma join_separators sep part parts :
  join sep (part :: parts)
  = part +:+ foldr (fun p acc => sep +:+ p +:+ acc) "" parts.
Proof.
  revert part. induction parts as [|part' parts IH]; intros part.
  - simpl. by rewrite append_empty_r.
  - change (join sep (part :: part' :: parts))
      with (part +:+ sep +:+ join sep (part' :: parts)).
    by rewrite IH.
Qed.

Lemma rows_length results :
  length (rows results)
  = length (documents results) `min` length (metadata results).
Proof.
  unfold rows. generalize (metadata results).
  induction (documents results) as [|doc docs IH]; intros [|meta metas]; simpl;
    [done..|]. by rewrite IH.
Qed.

(** C6, the three outputs of a search. On a result set whose error is set,
    [execute] returns the error string itself. On one without error and
    without rows it returns ["No relevant content found"], followed by
    [" in course '<course_name>'"] exactly when a course name was given and
    by [" in lesson <lesson_number>"] exactly when a lesson number was
    given, and closed by a full stop. Otherwise it returns one block per
    row, the [i]-th made of the [i]-th document and metadata:
    ["[<course_title> - Lesson <n>]"] or ["[<course_title>]"] on one line
    and the document text on the next; the string returned is the first
    block followed by every other block, each after a blank line. *)
Theorem execute_output tool query course_name lesson :
  let results := search (store tool) query course_name lesson in
  let output := (execute tool query course_name lesson).1 in
  (∀ message, error results = Some message → output = message) ∧
  (error results = None → documents results = [] →
   output = "No relevant content found" +:+
            (match course_name with
             | Some c => " in course '" +:+ c +:+ "'"
             | None => ""
             end) +:+
            (match lesson with
             | Some n => " in lesson " +:+ pretty n
             | None => ""
             end) +:+ ".") ∧
  (error results = None → documents results ≠ [] →
   ∃ blocks,
     length blocks
     = length (documents results) `min` length (metadata results) ∧
     (∀ i doc meta,
        documents results !! i = Some doc →
        metadata results !! i = Some meta →
        blocks !! i =
          Some (match lesson_number meta with
                | Some n => "[" +:+ course_title meta +:+ " - Lesson " +:+ pretty n +:+ "]"
                | None => "[" +:+ course_title meta +:+ "]"
                end +:+ String (ascii_of_nat 10) doc)) ∧
     output = match blocks with
              | [] => ""
              | block :: others =>
                  block +:+
                  foldr (fun b rest =>
                           String (ascii_of_nat 10) (String (ascii_of_nat 10) (b +:+ rest)))
                    "" others
              end).
Proof.
  intros results output. subst output. unfold execute. fold results.
  split_and!.
  - by intros message ->.
  - intros -> Hdocs. unfold is_empty. rewrite Hdocs. simpl.
    unfold filter_info. by rewrite !append_assoc.
  - intros -> Hdocs. unfold is_empty.
    destruct (documents results) as [|doc docs] eqn:Hd; [done|]. simpl.
    exists (format_block <$> rows results). split_and!.
    + by rewrite length_fmap, rows_length, Hd.
    + intros i d meta Hdoc Hmeta.
      assert (rows results !! i = Some (d, meta)) as Hrow.
      { unfold rows. rewrite Hd. by apply lookup_zip_Some. }
      rewrite list_lookup_fmap, Hrow. simpl. f_equal.
      destruct (lesson_number meta); rewrite !append_assoc; reflexivity.
    + destruct (format_block <$> rows results) as [|block others]; [done|].
      by rewrite join_separators.
Qed.

(** C8, citations are replaced. After an execution the citations of the
    tool are those of the result set it got, whatever they were before:
    none when the error is set or there is no row, one per row otherwise.
    Hence after two executions only the citations of the second are left. *)
Theorem sources_replaced tool query course_name lesson :
  let results := search (store tool) query course_name lesson in
  let tool' := (execute tool query course_name lesson).2 in
  (is_Some (error results) ∨ documents results = [] → last_sources tool' = []) ∧
  (error results = None →
   last_sources tool' = citation (store tool) <$> rows results) ∧
  (∀ query0 course_name0 lesson0,
     last_sources
       (execute (execute tool query0 course_name0 lesson0).2
          query course_name lesson).2
     = match error results with
       | Some _ => []
       | None => citation (store tool) <$> rows results
       end).
Proof.
  intros results tool'.
  assert (∀ t, store t = store tool →
               last_sources (execute t query course_name lesson).2
               = match error results with
                 | Some _ => []
                 | None => citation (store tool) <$> rows results
                 end) as Hany.
  { intros t Ht. unfold execute. rewrite Ht. fold results.
    destruct (error results); [done|].
    destruct (is_empty results) eqn:Hempty; simpl; [|by rewrite Ht].
    by rewrite (is_empty_rows _ Hempty). }
  subst tool'. split_and!.
  - intros [[message Herr]|Hdocs]; rewrite Hany by done.
    + by rewrite Herr.
    + destruct (error results); [done|]. unfold rows. by rewrite Hdocs.
  - intros Herr. rewrite Hany by done. by rewrite Herr.
  - intros query0 course_name0 lesson0.
    rewrite Hany; [done|]. apply execute_keeps_store.
Qed.

End RetrievalClaims.

Section RegistryClaims.
Context {MW T : Type} `{Retrieval.Tool T}.
Variable model : ApiParams → MW → Res Response * MW.

Local Abbreviation create := (Assembly.create model).
Local Abbreviation execute_tool := (@Assembly.execute_tool MW T _).

Lemma execute_tool_absent (registry : gmap string T) name input :
  registry !! name = None →
  Retrieval.execute_tool name input registry
  = (Ok ("Tool '" +:+ name +:+ "' not found"), registry).
Proof. unfold Retrieval.execute_tool. by intros ->. Qed.

(** Executing a tool registers nothing. *)
Lemma execute_tool_keeps_absent (registry : gmap string T) name input name' :
  registry !! name' = None →
  (Retrieval.execute_tool name input registry).2 !! name' = None.
Proof.
  intros Habsent. unfold Retrieval.execute_tool.
  destruct (registry !! name) as [tool|] eqn:Hname; [|done].
  destruct (Retrieval.tool_execute tool input) as [outcome tool'].
  simpl. rewrite lookup_insert_ne; [done|]. congruence.
Qed.

Lemma tool_round_keeps_absent blocks (w : MW * gmap string T) name results events w' :
  tool_round execute_tool blocks () w = (results, events, w') →
  w.2 !! name = None → w'.2 !! name = None.
Proof.
  revert w results events.
  induction blocks as [|[text|id name0 input] rest IH]; intros w results events; simpl.
  - by intros [= <- <- <-].
  - apply IH.
  - unfold Assembly.execute_tool at 1.
    destruct (Retrieval.execute_tool name0 input w.2) as [outcome registry] eqn:Hexec.
    destruct (tool_round execute_tool rest () (w.1, registry))
      as [[results1 events1] w2] eqn:Hrest.
    intros [= <- <- <-] Habsent. eapply IH; [exact Hrest|]. simpl.
    change registry with (outcome, registry).2. rewrite <- Hexec.
    by apply execute_tool_keeps_absent.
Qed.

(** C7, unknown tool names. The registry answers a name it does not hold
    with the string ["Tool '<name>' not found"], and raises nothing. When a
    model response of a tool round requests such a name, that string is the
    content of the call's tool result, under the call's id, in the user
    message on which the next model call is made. *)
Theorem unknown_tool_reported self sys round_num rest (state : ConversationState unit)
    (st : Run (MW * gmap string T)) r mw1 before id name input after :
  (∀ (registry : gmap string T) name' input',
     registry !! name' = None →
     Retrieval.execute_tool name' input' registry
     = (Ok ("Tool '" +:+ name' +:+ "' not found"), registry)) ∧
  (tool_manager state = Some () →
   (world st).2 !! name = None →
   model (round_params self state sys) (world st).1 = (Ok r, mw1) →
   stop_reason r = "tool_use" →
   content r = before ++ ToolUseBlock id name input :: after →
   ∃ results events p outcome tr,
     trace (rounds_loop create execute_tool self (round_num :: rest) state sys st).2
     = trace st ++ ModelCall (round_params self state sys) (Ok r)
         :: events ++ ModelCall p outcome :: tr ∧
     forallb is_tool_call events = true ∧
     ToolCall name input (Ok ("Tool '" +:+ name +:+ "' not found")) ∈ events ∧
     mkToolResult "tool_result" id ("Tool '" +:+ name +:+ "' not found") ∈ results ∧
     api_messages p =
       messages state ++ [mkMessage "assistant" (Blocks (content r));
                          mkMessage "user" (Results results)]).
Proof.
  split; [intros; by apply execute_tool_absent|].
  intros Htm Habsent Hmodel Hstop Hcontent.
  assert (create (round_params self state sys) (world st)
          = (Ok r, (mw1, (world st).2))) as Hcreate
    by (unfold Assembly.create; by rewrite Hmodel).
  assert (py_and (String.eqb (stop_reason r) "tool_use") (tool_manager state)
          = Some ()) as Hand by (by rewrite Hstop, Htm).
  rewrite (rounds_loop_tool_round _ _ _ _ _ _ _ _ _ _ _ Hcreate Hand).
  destruct (tool_round execute_tool (content r) () (mw1, (world st).2))
    as [[results events] w2] eqn:Hround.
  destruct (tool_round_aligned _ _ _ _ _ _ _ Hround) as (_ & _ & _ & Hev).
  rewrite Hcontent, tool_round_app in Hround.
  destruct (tool_round execute_tool before () (mw1, (world st).2))
    as [[results1 events1] w1] eqn:Hbefore.
  pose proof (tool_round_keeps_absent _ _ name _ _ _ Hbefore Habsent) as Hstill.
  simpl in Hround. unfold Assembly.execute_tool at 1 in Hround.
  rewrite (execute_tool_absent _ _ _ Hstill) in Hround.
  destruct (tool_round execute_tool after () (w1.1, w1.2))
    as [[results2 events2] w3] eqn:Hafter.
  injection Hround as <- <- <-.
  destruct (rounds_loop_Rounds create execute_tool self sys rest
              (next_state state round_num r
                 (results1 ++
                  mkToolResult "tool_result" id ("Tool '" +:+ name +:+ "' not found")
                  :: results2))
              (mkRun w3 (trace st ++ ModelCall (round_params self state sys) (Ok r)
                           :: events1 ++
                           ToolCall name input
                             (Ok ("Tool '" +:+ name +:+ "' not found")) :: events2)))
    as (answer & st' & Hrun & Hrounds).
  rewrite Hrun. simpl.
  destruct (Rounds_first_call _ _ _ _ _ _ _ _ _ Hrounds)
    as (p & outcome & tr & Htrace & Hmessages).
  eexists _, _, p, outcome, tr. split_and!.
  - rewrite Htrace. simpl. by rewrite <- app_assoc.
  - done.
  - apply elem_of_app. right. apply elem_of_cons. by left.
  - apply elem_of_app. right. apply elem_of_cons. by left.
  - rewrite Hmessages. simpl. by destruct results1.
Qed.

End RegistryClaims.

(** * The statements on the scripted collaborators *)

Section Scenarios.
Import Mock.

Local Abbreviation run_mock := (invoke Mock.create Mock.execute_tool prompt generator).
Local Abbreviation offered := (Some [search_schema]).

(** Two rounds of search and the forced final call: three model calls. *)
Lemma round_bound_two_searches :
  ∃ p1 p2 p3,
    model_calls (trace (run_mock "Complex query" None offered
                          (Some (Ok "Search result")) two_searches).2)
    = [p1; p2; p3] ∧
    tool_bearing offered p1 ∧ tool_bearing offered p2 ∧ tool_free p3.
Proof.
  apply (proj2 (round_bound Mock.create Mock.execute_tool prompt generator
                  "Complex query" None offered (Some (Ok "Search result"))
                  two_searches)).
  - by eexists.
  - reflexivity.
  - reflexivity.
Defined.

(** C1 as stated fails without a tool manager: the model asks for tools in
    each of its scripted responses, the first one is taken as the final
    answer, after one call that offered the tools; no forced call follows.
    It also fails when no tools are offered: the three calls are made, and
    none of them bears tools. *)
Lemma round_bound_without_tool_manager :
  let run := run_mock "Complex query" None offered None two_searches in
  let run' := run_mock "Complex query" None None (Some (Ok "Search result"))
                two_searches in
  (forallb requests_tools (take 2 two_searches) = true ∧
   forallb requests_tools (take 2 (model_outcomes (trace run.2))) = true ∧
   length (model_calls (trace run.2)) = 1 ∧
   api_tools <$> model_calls (trace run.2) = [offered] ∧
   run.1 = Ok "Error: 'ToolUseBlock' object has no attribute 'text'") ∧
  (forallb requests_tools (take 2 (model_outcomes (trace run'.2))) = true ∧
   api_tools <$> model_calls (trace run'.2) = [None; None; None] ∧
   api_tool_choice <$> model_calls (trace run'.2) = [None; None; None]).
Proof. vm_compute. by repeat split. Qed.

(** The call of the second round fails: the answer carries its message. *)
Lemma model_failure_second_round :
  (run_mock "Query" None offered (Some (Ok "Successful first search"))
     second_round_fails).1
  = Ok "Error: API rate limit exceeded".
Proof.
  destruct (proj2 (model_failure_reported Mock.create Mock.execute_tool prompt
                     generator "Query" None offered
                     (Some (Ok "Successful first search")) second_round_fails)
              1 (Exn "API rate limit exceeded") eq_refl)
    as (_ & Hround & _).
  apply Hround; [lia|discriminate].
Defined.

(** C2 as stated fails on the forced final call: its failure is answered by
    a string that does not start with ["Error: "]. *)
Lemma model_failure_final_call :
  let run := run_mock "Query" None offered (Some (Ok "Search result"))
               final_call_fails in
  model_outcomes (trace run.2) !! 2 = Some (Raise (Exn "API rate limit exceeded")) ∧
  run.1 = Ok "Error generating final response: API rate limit exceeded" ∧
  String.prefix "Error: " "Error generating final response: API rate limit exceeded"
  = false ∧
  length (tool_calls (trace run.2)) = 2.
Proof. vm_compute. by repeat split. Qed.

(** A first response with a text: one call, no tool, the text. *)
Lemma natural_termination_direct_answer :
  let run := run_mock "What is 2+2?" None offered (Some (Ok "unused"))
               [Ok (text_response "4")] in
  length (model_calls (trace run.2)) = 1 ∧
  tool_calls (trace run.2) = [] ∧
  run.1 = Ok "4".
Proof.
  destruct (natural_termination Mock.create Mock.execute_tool prompt generator
              "What is 2+2?" None offered (Some (Ok "unused"))
              [Ok (text_response "4")] (text_response "4") eq_refl eq_refl)
    as (Hcalls & Htools & Htext).
  split_and!; [exact Hcalls|exact Htools|exact (Htext "4" [] eq_refl)].
Defined.

(** C3 as stated fails on an empty text: the string returned is not the
    text of the response. *)
Lemma natural_termination_empty_text :
  let run := run_mock "What is 2+2?" None offered (Some (Ok "unused"))
               [Ok (text_response "")] in
  model_outcomes (trace run.2) = [Ok (text_response "")] ∧
  requests_tools (Ok (text_response "")) = false ∧
  tool_requests (content (text_response "")) = [] ∧
  content_0_text (text_response "") = Ok "" ∧
  run.1 = Ok "No response generated".
Proof. vm_compute. by repeat split. Qed.

Local Abbreviation first_state :=
  (initial_state "Search for multiple things" offered (Some (Ok "Search result"))).
Local Abbreviation first_params :=
  (round_params generator first_state prompt).

(** A response with two requests: two results under the two ids, then the
    next model call on query, assistant message and the bundled results. *)
Lemma result_alignment_two_requests :
  ∃ results events p outcome tr,
    length results = 2 ∧
    tool_use_id <$> results = ["tool_123"; "tool_456"] ∧
    tool_calls events =
      [("search_course_content", [("query", VStr "first query")]);
       ("search_course_content", [("query", VStr "second query")])] ∧
    forallb is_tool_call events = true ∧
    trace (rounds_loop Mock.create Mock.execute_tool generator [1; 2] first_state
             prompt (mkRun [Ok two_requests; Ok (text_response "Combined")] [])).2
    = [] ++ ModelCall first_params (Ok two_requests)
        :: events ++ ModelCall p outcome :: tr ∧
    api_messages p =
      messages first_state ++ [mkMessage "assistant" (Blocks (content two_requests));
                               mkMessage "user" (Results results)].
Proof.
  apply (result_alignment Mock.create Mock.execute_tool generator prompt 1 [2]
           first_state (mkRun [Ok two_requests; Ok (text_response "Combined")] [])
           (Ok "Search result") two_requests [Ok (text_response "Combined")]).
  - reflexivity.
  - reflexivity.
  - reflexivity.
  - simpl. lia.
Defined.

(** C4 as stated fails on a response that holds a tool-use block but whose
    stop reason is not ["tool_use"]: with a tool manager at hand, no tool is
    executed, the round has no tool result and no model call follows. *)
Lemma result_alignment_truncated_response :
  let run := run_mock "Query" None offered (Some (Ok "Search result"))
               [Ok truncated_response; Ok (text_response "unused")] in
  length (tool_requests (content truncated_response)) = 1 ∧
  (_execute_single_round Mock.create Mock.execute_tool generator
     (initial_state "Query" offered (Some (Ok "Search result"))) prompt
     (mkRun [Ok truncated_response; Ok (text_response "unused")] [])).1
  = Ok (mkRoundResponse None false [] None
          (Some "'ToolUseBlock' object has no attribute 'text'")) ∧
  tool_calls (trace run.2) = [] ∧
  length (model_calls (trace run.2)) = 1 ∧
  run.1 = Ok "Error: 'ToolUseBlock' object has no attribute 'text'".
Proof. vm_compute. by repeat split. Qed.

(** The first of two requests fails, the second is executed all the same. *)
Lemma tool_failure_first_of_two :
  ∃ results_after st_after,
    handle_blocks Mock.execute_tool [search_block "tool_456" "second query"]
      (Raise (Exn "ChromaDB connection error")) []
      (mkRun [] ([ModelCall first_params (Ok two_requests)] ++
                 [ToolCall "search_course_content" [("query", VStr "first query")]
                    (Raise (Exn "ChromaDB connection error"))]))
    = (Ok results_after, st_after) ∧
    length results_after = 1 ∧
    tool_calls (trace st_after) =
      [] ++ ("search_course_content", [("query", VStr "first query")]) ::
        [("search_course_content", [("query", VStr "second query")])] ∧
    _execute_single_round Mock.create Mock.execute_tool generator
      (initial_state "Search for multiple things" offered
         (Some (Raise (Exn "ChromaDB connection error")))) prompt
      (mkRun [Ok two_requests] [])
    = (Ok (mkRoundResponse (Some two_requests) true
             ([] ++ mkToolResult "tool_result" "tool_123"
                      "Tool execution failed: ChromaDB connection error"
                 :: results_after) None None),
       st_after).
Proof.
  apply (tool_failure_contained Mock.create Mock.execute_tool generator prompt
           (initial_state "Search for multiple things" offered
              (Some (Raise (Exn "ChromaDB connection error"))))
           (mkRun [Ok two_requests] []) (Raise (Exn "ChromaDB connection error"))
           two_requests [] [] "tool_123" "search_course_content"
           [("query", VStr "first query")]
           [search_block "tool_456" "second query"] []
           (mkRun [] [ModelCall first_params (Ok two_requests)])
           (Exn "ChromaDB connection error") []).
  all: reflexivity.
Defined.

(** Without a tool manager a request for tools is answered by the text that
    comes before it. *)
Lemma without_tool_manager_text_first :
  (run_mock "Query" None offered None
     [Ok (mkResponse [TextBlock "Let me search."; search_block "tool_1" "basics"]
            "tool_use")]).1
  = Ok "Let me search.".
Proof.
  apply (proj2 (proj2 (without_tool_manager (TM:=ToolManager) Mock.create
                         Mock.execute_tool prompt generator "Query" None offered
                         [Ok (mkResponse [TextBlock "Let me search.";
                                          search_block "tool_1" "basics"]
                                "tool_use")]
                         (mkResponse [TextBlock "Let me search.";
                                      search_block "tool_1" "basics"] "tool_use")))).
  reflexivity.
Defined.

(** C9 as stated fails when the text of the first block is empty: reading
    it does not raise, and the string returned is not that text. *)
Lemma without_tool_manager_empty_text :
  let run := run_mock "Query" None offered None [Ok empty_text_then_tool] in
  content_0_text empty_text_then_tool = Ok "" ∧
  model_outcomes (trace run.2) = [Ok empty_text_then_tool] ∧
  tool_calls (trace run.2) = [] ∧
  run.1 = Ok "No response generated".
Proof. vm_compute. by repeat split. Qed.

(** An empty answer in the second round. *)
Lemma no_response_generated_second_round :
  (run_mock "Query" None offered (Some (Ok "Search result"))
     [Ok (tool_use_response "tool_1" "basics"); Ok (text_response "")]).1
  = Ok "No response generated".
Proof.
  apply (proj2 (no_response_generated Mock.create Mock.execute_tool prompt generator
                  "Query" None offered (Some (Ok "Search result"))
                  [Ok (tool_use_response "tool_1" "basics"); Ok (text_response "")]
                  (text_response ""))).
  - reflexivity.
  - simpl. lia.
  - reflexivity.
Defined.

(** The three outputs: the error of the backend as it is, the scenario of
    an empty filtered search, and the two blocks of a search with rows, the
    second without a lesson number, a blank line between them. *)
Lemma execute_output_three_cases :
  (Retrieval.execute (Retrieval.mkCourseSearchTool (store_of results_error) [])
     "query" None None).1
  = "Database connection failed" ∧
  (Retrieval.execute (Retrieval.mkCourseSearchTool (store_of results_empty) [])
     "x" (Some "NoSuch") (Some 9%Z)).1
  = "No relevant content found in course 'NoSuch' in lesson 9." ∧
  (Retrieval.execute (Retrieval.mkCourseSearchTool (store_of results_success) [])
     "machine learning" None None).1
  = "[Introduction to Machine Learning - Lesson 1]" +:+
    String (ascii_of_nat 10)
      ("Machine learning is a subset of artificial intelligence." +:+
       String (ascii_of_nat 10) (String (ascii_of_nat 10)
         ("[Introduction to Machine Learning]" +:+
          String (ascii_of_nat 10) "Linear regression is a statistical method."))).
Proof.
  split_and!.
  - destruct (execute_output
                (Retrieval.mkCourseSearchTool (store_of results_error) [])
                "query" None None) as (Herror & _ & _).
    exact (Herror "Database connection failed" eq_refl).
  - destruct (execute_output
                (Retrieval.mkCourseSearchTool (store_of results_empty) [])
                "x" (Some "NoSuch") (Some 9%Z)) as (_ & Hempty & _).
    exact (Hempty eq_refl eq_refl).
  - destruct (execute_output
                (Retrieval.mkCourseSearchTool (store_of results_success) [])
                "machine learning" None None) as (_ & _ & Hrows).
    destruct (Hrows eq_refl ltac:(discriminate))
      as (blocks & Hlength & Hblocks & ->).
    pose proof (Hblocks 0 _ _ eq_refl eq_refl) as Hfirst.
    pose proof (Hblocks 1 _ _ eq_refl eq_refl) as Hsecond.
    destruct blocks as [|first [|second [|third blocks]]]; try discriminate Hlength.
    injection Hfirst as ->. injection Hsecond as ->. reflexivity.
Defined.

(** A search with rows after an earlier one: the citations of its two rows,
    and nothing of what the tool held before. *)
Lemma sources_replaced_after_search :
  Retrieval.last_sources
    (Retrieval.execute
       (Retrieval.mkCourseSearchTool (store_of results_success)
          [Retrieval.mkSource "Lesson 7: Earlier search" None])
       "machine learning" None None).2
  = [Retrieval.mkSource "Lesson 1: Introduction to ML"
       (Some "https://example.com/lesson1");
     Retrieval.mkSource "Introduction to Machine Learning" None].
Proof.
  destruct (sources_replaced
              (Retrieval.mkCourseSearchTool (store_of results_success)
                 [Retrieval.mkSource "Lesson 7: Earlier search" None])
              "machine learning" None None)
    as (_ & Hrows & _).
  exact (Hrows eq_refl).
Defined.

Local Abbreviation registry :=
  (Retrieval.register_tool
     (Retrieval.mkCourseSearchTool (store_of results_success) []) ∅).
Local Abbreviation bogus_request :=
  (mkResponse [ToolUseBlock "tool_1" "bogus" [("query", VStr "x")]] "tool_use").
Local Abbreviation registry_state :=
  (initial_state "Query" offered (Some ())).

(** The model asks for the tool ["bogus"], which the registry does not hold. *)
Lemma unknown_tool_bogus :
  ∃ results events p outcome tr,
    trace (rounds_loop (Assembly.create Mock.create) Assembly.execute_tool generator
             [1; 2] registry_state prompt
             (mkRun ([Ok bogus_request; Ok (text_response "No such tool.")], registry)
                [])).2
    = [] ++ ModelCall (round_params generator registry_state prompt) (Ok bogus_request)
        :: events ++ ModelCall p outcome :: tr ∧
    forallb is_tool_call events = true ∧
    ToolCall "bogus" [("query", VStr "x")] (Ok "Tool 'bogus' not found") ∈ events ∧
    mkToolResult "tool_result" "tool_1" "Tool 'bogus' not found" ∈ results ∧
    api_messages p =
      messages registry_state ++
        [mkMessage "assistant" (Blocks (content bogus_request));
         mkMessage "user" (Results results)].
Proof.
  apply (proj2 (unknown_tool_reported Mock.create generator prompt 1 [2]
                  registry_state
                  (mkRun ([Ok bogus_request; Ok (text_response "No such tool.")],
                          registry) [])
                  bogus_request [Ok (text_response "No such tool.")]
                  [] "tool_1" "bogus" [("query", VStr "x")] [])).
  - reflexivity.
  - vm_compute. reflexivity.
  - reflexivity.
  - reflexivity.
  - reflexivity.
Defined.

End Scenarios.

(** * The tests, replayed on the embedding *)

Section Tests.
Import Mock.

Local Abbreviation run_mock := (invoke Mock.create Mock.execute_tool prompt generator).
Local Abbreviation offered := (Some [search_schema]).

(** [test_generate_response_without_tools]. *)
Example test_generate_response_without_tools :
  let run := run_mock "What is machine learning?" None None None
               [Ok (text_response "This is a test response")] in
  run.1 = Ok "This is a test response" ∧
  api_messages <$> model_calls (trace run.2)
  = [[mkMessage "user" (QueryText "What is machine learning?")]].
Proof. vm_compute. by split. Qed.

(** [test_sequential_tool_calling_two_rounds]: two tool executions, three
    model calls on 1, 3 and 5 messages, the final text. *)
Example test_sequential_tool_calling_two_rounds :
  let run := run_mock "Compare machine learning and neural networks" None offered
               (Some (Ok "ML is about algorithms learning from data"))
               [Ok (tool_use_response "tool_round1" "machine learning basics");
                Ok (tool_use_response "tool_round2" "neural networks");
                Ok (text_response "Based on my searches")] in
  run.1 = Ok "Based on my searches" ∧
  tool_calls (trace run.2)
  = [("search_course_content", [("query", VStr "machine learning basics")]);
     ("search_course_content", [("query", VStr "neural networks")])] ∧
  (length ∘ api_messages) <$> model_calls (trace run.2) = [1; 3; 5].
Proof. vm_compute. by repeat split. Qed.

(** [test_sequential_tool_calling_early_termination]. *)
Example test_sequential_tool_calling_early_termination :
  let run := run_mock "What is Python?" None offered
               (Some (Ok "Python is a high-level programming language"))
               [Ok (tool_use_response "tool_123" "python basics");
                Ok (text_response "Python is a programming language...")] in
  run.1 = Ok "Python is a programming language..." ∧
  length (tool_calls (trace run.2)) = 1 ∧
  length (model_calls (trace run.2)) = 2.
Proof. vm_compute. by repeat split. Qed.

(** [test_anthropic_api_error]. *)
Example test_anthropic_api_error :
  (run_mock "Test query" None None None [Raise (Exn "API rate limit exceeded")]).1
  = Ok "Error: API rate limit exceeded".
Proof. reflexivity. Qed.

(** [test_execute_search_error]. *)
Example test_execute_search_error :
  Retrieval.execute (Retrieval.mkCourseSearchTool (store_of results_error) [])
    "query" None None
  = ("Database connection failed",
     Retrieval.mkCourseSearchTool (store_of results_error) []).
Proof. reflexivity. Qed.

(** [test_execute_empty_results_with_filters]. *)
Example test_execute_empty_results_with_filters :
  (Retrieval.execute (Retrieval.mkCourseSearchTool (store_of results_empty) [])
     "content" (Some "Missing Course") (Some 99%Z)).1
  = "No relevant content found in course 'Missing Course' in lesson 99.".
Proof. reflexivity. Qed.

(** [test_format_results_with_lesson_info], [test_format_results_without_lesson_info]
    and [test_format_results_no_lesson_number]. *)
Example test_format_results :
  Retrieval.format_block
    ("Sample content", Retrieval.mkMetadata "ML Course" (Some 3%Z) 0)
  = "[ML Course - Lesson 3]" +:+ newline +:+ "Sample content" ∧
  Retrieval.citation
    (Retrieval.mkVectorStore (fun _ _ _ => results_empty)
       (fun _ _ => (Some "Advanced Topics", Some "https://example.com/lesson3")))
    ("Sample content", Retrieval.mkMetadata "ML Course" (Some 3%Z) 0)
  = Retrieval.mkSource "Lesson 3: Advanced Topics" (Some "https://example.com/lesson3") ∧
  Retrieval.citation
    (Retrieval.mkVectorStore (fun _ _ _ => results_empty) (fun _ _ => (None, None)))
    ("General course content", Retrieval.mkMetadata "ML Course" (Some 5%Z) 0)
  = Retrieval.mkSource "Lesson 5" None ∧
  Retrieval.format_block
    ("Course overview content", Retrieval.mkMetadata "ML Course" None 0)
  = "[ML Course]" +:+ newline +:+ "Course overview content" ∧
  Retrieval.citation
    (Retrieval.mkVectorStore (fun _ _ _ => results_empty) (fun _ _ => (None, None)))
    ("Course overview content", Retrieval.mkMetadata "ML Course" None 0)
  = Retrieval.mkSource "ML Course" None.
Proof. by repeat split. Qed.

(** [test_execute_tool_not_found]. *)
Example test_execute_tool_not_found :
  (Retrieval.execute_tool (T:=Retrieval.CourseSearchTool) "nonexistent_tool"
     [("query", VStr "test")] ∅).1
  = Ok "Tool 'nonexistent_tool' not found".
Proof. reflexivity. Qed.

End Tests.

(** * More about the loop

    Properties of [ai_generator.py] beside the claims: what every model call
    of an invocation carries, how the conversation grows, which tools are
    executed, and the edges of the termination branch. *)

Ltac align_tools :=
  repeat match goal with
  | H : tool_round _ _ _ _ = (?results, ?events, _) |- _ =>
      lazymatch goal with
      | _ : tool_use_id <$> results = _ |- _ => fail
      | _ => destruct (tool_round_aligned _ _ _ _ _ _ _ H) as (? & ? & _ & _);
             destruct (tool_round_length _ _ _ _ _ _ _ H) as (? & _)
      end
  end.

Section Invocations.
Context {W TM : Type}.
Variable create : ApiParams → W → Res Response * W.
Variable execute_tool : TM → string → ToolInput → W → Res string * W.
Variable SYSTEM_PROMPT : string.

Local Abbreviation invoke := (invoke create execute_tool SYSTEM_PROMPT).

Lemma round_params_base self (state : ConversationState TM) sys :
  let p := round_params self state sys in
  api_model p = model self ∧ api_temperature p = base_temperature self ∧
  api_max_tokens p = base_max_tokens self ∧ api_system p = sys.
Proof. unfold round_params. by destruct (truthy (tools state)). Qed.

Lemma round_params_offer self (state : ConversationState TM) sys :
  (truthy (tools state) = true ∧ tool_bearing (tools state) (round_params self state sys))
  ∨ tool_free (round_params self state sys).
Proof. unfold round_params. destruct (truthy (tools state)); [by left|by right]. Qed.

(** X1, the parameters every model call carries. Each model call of an
    invocation, in a round or forced, carries the model name, the temperature
    and the token limit of the generator, and one and the same system text:
    the system prompt alone when the conversation history is [None] or
    empty, and the prompt, a blank line, ["Previous conversation:"] and the
    history on the next line otherwise. *)
Theorem call_parameters_constant self query history offered (tool_manager : option TM)
    w p :
  p ∈ model_calls (trace (invoke self query history offered tool_manager w).2) →
  api_model p = model self ∧
  api_temperature p = base_temperature self ∧
  api_max_tokens p = base_max_tokens self ∧
  api_system p =
    match history with
    | Some (String c h) =>
        SYSTEM_PROMPT +:+ newline +:+ newline +:+ "Previous conversation:" +:+ newline
        +:+ String c h
    | _ => SYSTEM_PROMPT
    end.
Proof.
  destruct (invoke_Rounds create execute_tool SYSTEM_PROMPT
              self query history offered tool_manager w)
    as (answer & st' & -> & Hrounds).
  assert (system_content_of SYSTEM_PROMPT history =
          match history with
          | Some (String c h) =>
              SYSTEM_PROMPT +:+ newline +:+ newline +:+ "Previous conversation:"
              +:+ newline +:+ String c h
          | _ => SYSTEM_PROMPT
          end) as <- by (by destruct history as [[|c h]|]).
  simpl. invert_rounds; silence_trace.
  all: rewrite ?elem_of_cons, elem_of_nil.
  all: intros Hp; repeat destruct Hp as [->|Hp]; try done.
  all: try apply round_params_base; done.
Qed.

(** X2, tools and tool choice go together. A model call of an invocation
    either carries the offered tool schemas, which are then a non-empty
    list, together with the automatic tool choice, or carries neither key;
    when the tools argument is [None] or the empty list, no call carries
    tools or a tool choice. *)
Theorem tools_offered_or_absent self query history offered (tool_manager : option TM)
    w p :
  p ∈ model_calls (trace (invoke self query history offered tool_manager w).2) →
  ((truthy offered = true ∧ tool_bearing offered p) ∨ tool_free p) ∧
  (offered = None ∨ offered = Some [] → tool_free p).
Proof.
  destruct (invoke_Rounds create execute_tool SYSTEM_PROMPT
              self query history offered tool_manager w)
    as (answer & st' & -> & Hrounds).
  intros Hp.
  assert ((truthy offered = true ∧ tool_bearing offered p) ∨ tool_free p) as Hoffer.
  { revert Hp. simpl. invert_rounds; silence_trace.
    all: rewrite ?elem_of_cons, elem_of_nil.
    all: intros Hp; repeat destruct Hp as [->|Hp]; try done.
    all: try (by right).
    all: match goal with
         | |- context [round_params ?self ?state ?sys] =>
             apply (round_params_offer self state sys)
         end. }
  split; [done|].
  intros Hnone. destruct Hoffer as [[Htruthy _]|]; [|done].
  by destruct Hnone as [-> | ->].
Qed.

Lemma final_params_messages self (state : ConversationState TM) sys :
  api_messages (final_params self state sys) = messages state.
Proof. done. Qed.

(** X3, the conversation only grows. The first model call of an invocation
    is made on the user's query alone. Each later call is made on the
    messages of the call before it, followed by an assistant message with
    the blocks of the response to that call and, when that response held
    tool-use blocks, one user message with one result per block, under the
    blocks' ids and in their order. *)
Theorem conversation_grows self query history offered (tool_manager : option TM) w :
  let run := (invoke self query history offered tool_manager w).2 in
  (api_messages <$> model_calls (trace run)) !! 0
  = Some [mkMessage "user" (QueryText query)] ∧
  ∀ i p q,
    model_calls (trace run) !! i = Some p →
    model_calls (trace run) !! S i = Some q →
    ∃ r results,
      model_outcomes (trace run) !! i = Some (Ok r) ∧
      tool_use_id <$> results = (fun rq => rq.1.1) <$> tool_requests (content r) ∧
      api_messages q =
        api_messages p ++ mkMessage "assistant" (Blocks (content r)) ::
          (if truthy results then [mkMessage "user" (Results results)] else []).
Proof.
  destruct (invoke_Rounds create execute_tool SYSTEM_PROMPT
              self query history offered tool_manager w)
    as (answer & st' & -> & Hrounds).
  simpl. invert_rounds; align_tools; silence_trace.
  all: split; [simpl; by rewrite round_params_messages|].
  all: intros [|[|i]] p q Hp Hq; simplify_eq/=.
  all: eexists _, _; split; [reflexivity|].
  all: rewrite ?round_params_messages, ?final_params_messages.
  all: split; [eassumption|reflexivity].
Qed.

(** X4, user and assistant take turns. When every response of the two
    rounds that requests tool use holds at least one tool-use block, the
    messages of the [i]-th model call of an invocation (counting from 0)
    open with the user, alternate between assistant and user, and close
    with the user: [2 * i + 1] messages in all. *)
Theorem roles_alternate self query history offered (tool_manager : option TM) w :
  let run := (invoke self query history offered tool_manager w).2 in
  (∀ r, Ok r ∈ take 2 (model_outcomes (trace run)) →
        stop_reason r = "tool_use" → tool_requests (content r) ≠ []) →
  ∀ i p,
    model_calls (trace run) !! i = Some p →
    role <$> api_messages p = turns i ∧ length (api_messages p) = 2 * i + 1.
Proof.
  destruct (invoke_Rounds create execute_tool SYSTEM_PROMPT
              self query history offered tool_manager w)
    as (answer & st' & -> & Hrounds).
  simpl. invert_rounds; split_py_and; align_tools; silence_trace.
  all: intros Hblocks [|[|[|i]]] p Hp; simplify_eq/=.
  all: rewrite ?round_params_messages, ?final_params_messages; simpl.
  all: try done.
  all: repeat match goal with
       | Hs : String.eqb (stop_reason ?r) "tool_use" = true,
         Hlen : length ?results = length (tool_requests (content ?r)) |- _ =>
           let Hne := fresh in
           assert (tool_requests (content r) ≠ []) as Hne
             by (apply Hblocks; [set_solver|by apply String.eqb_eq]);
           destruct results; [by destruct (tool_requests (content r))|];
           clear Hs
       end.
  all: simpl; rewrite ?fmap_app, ?length_app; simpl; try done.
Qed.

(** X5, the tools executed are the tools requested. With a tool manager,
    the tool calls of an invocation are, in order, exactly the calls that
    the responses to the model calls of the two rounds asked for, each with
    the name and the input of its block; what the response to the forced
    final call asks for is never executed. The model is called once, and
    once more after every round that asked for tools. *)
Theorem executed_tools_are_requested self query history offered
    (tool_manager : option TM) w :
  let run := (invoke self query history offered tool_manager w).2 in
  is_Some tool_manager →
  tool_calls (trace run)
  = concat (requested_calls <$> take 2 (model_outcomes (trace run))) ∧
  length (model_calls (trace run))
  = 1 + length (filter (fun o => requests_tools o = true)
                  (take 2 (model_outcomes (trace run)))).
Proof.
  destruct (invoke_Rounds create execute_tool SYSTEM_PROMPT
              self query history offered tool_manager w)
    as (answer & st' & -> & Hrounds).
  simpl. intros [tm0 ->].
  invert_rounds; split_py_and; align_tools; silence_trace; simplify_eq/=.
  all: repeat match goal with
       | H : String.eqb _ _ = _ |- _ => rewrite H
       | H : tool_calls _ = _ |- _ => rewrite H
       end; simpl.
  all: rewrite ?app_nil_r.
  all: split; [done|].
  all: rewrite ?filter_cons, ?filter_nil; simpl.
  all: repeat match goal with
       | H : String.eqb _ _ = _ |- _ => rewrite H
       end.
  all: repeat case_decide; simpl; try done; try congruence.
Qed.

(** X10, a model failure without a message. When the model call of a round
    raises an exception whose message is empty, the invocation returns
    ["No response generated"]: the empty error text passes for no error. *)
Theorem empty_failure_message self query history offered (tool_manager : option TM)
    w i e :
  let result := (invoke self query history offered tool_manager w).1 in
  let run := (invoke self query history offered tool_manager w).2 in
  model_outcomes (trace run) !! i = Some (Raise e) →
  i < 2 →
  str e = "" →
  result = Ok "No response generated".
Proof.
  destruct (invoke_Rounds create execute_tool SYSTEM_PROMPT
              self query history offered tool_manager w)
    as (answer & st' & -> & Hrounds).
  simpl. intros Hi Hlt Hmsg.
  invert_rounds; silence_trace.
  all: destruct i as [|[|i]]; simplify_eq/=; try lia.
  all: unfold error_answer; by rewrite Hmsg.
Qed.

(** X11, the forced final answer. When an invocation comes to its third
    model call and that call returns a response, the invocation returns the
    text of the response's first block as it is, the empty text included;
    when the first block has no text or there is no block, it returns
    ["Error generating final response: <message>"] with the message of the
    failed read. *)
Theorem forced_answer_verbatim self query history offered (tool_manager : option TM)
    w r :
  let result := (invoke self query history offered tool_manager w).1 in
  let run := (invoke self query history offered tool_manager w).2 in
  model_outcomes (trace run) !! 2 = Some (Ok r) →
  result = Ok (match content_0_text r with
               | Ok text => text
               | Raise e => "Error generating final response: " +:+ str e
               end).
Proof.
  destruct (invoke_Rounds create execute_tool SYSTEM_PROMPT
              self query history offered tool_manager w)
    as (answer & st' & -> & Hrounds).
  simpl. intros Hthird.
  invert_rounds; silence_trace; by simplify_eq/=.
Qed.

End Invocations.

Section Rounds.
Context {W TM : Type}.
Variable create : ApiParams → W → Res Response * W.
Variable execute_tool : TM → string → ToolInput → W → Res string * W.

Local Abbreviation tool_round := (tool_round execute_tool).
Local Abbreviation rounds_loop := (rounds_loop create execute_tool).

Lemma tool_round_outcomes blocks tm w results events w' :
  tool_round blocks tm w = (results, events, w') →
  result_content <$> results
  = (fun outcome => match outcome with
                    | Ok tool_result => tool_result
                    | Raise e => "Tool execution failed: " +:+ str e
                    end) <$> tool_outcomes events.
Proof.
  revert w results events.
  induction blocks as [|[text|id name input] rest IH]; intros w results events; simpl.
  - by intros [= <- <- <-].
  - apply IH.
  - destruct (execute_tool tm name input w) as [outcome w1].
    destruct (tool_round rest tm w1) as [[results1 events1] w2] eqn:Hrest.
    intros [= <- <- <-]. simpl. f_equal. by eapply IH.
Qed.

(** X6, what a tool returns is what the model gets. [_handle_tool_execution]
    never raises. It makes tool calls only, one per result, and the content
    of each result is the string its tool call returned, unchanged, or
    ["Tool execution failed: <message>"] when the call raised; every result
    has the type ["tool_result"]. *)
Theorem tool_output_passed_on (response : Response) (tm : TM) (st : Run W) :
  ∃ results events w',
    _handle_tool_execution execute_tool response tm st
    = (Ok results, mkRun w' (trace st ++ events)) ∧
    forallb is_tool_call events = true ∧
    length results = length events ∧
    result_content <$> results
    = (fun outcome => match outcome with
                      | Ok tool_result => tool_result
                      | Raise e => "Tool execution failed: " +:+ str e
                      end) <$> tool_outcomes events ∧
    Forall (fun result => result_type result = "tool_result") results.
Proof.
  unfold _handle_tool_execution. rewrite handle_blocks_tool_round.
  destruct (tool_round (content response) tm (world st))
    as [[results events] w'] eqn:Hround.
  exists results, events, w'. simpl.
  destruct (tool_round_aligned _ _ _ _ _ _ _ Hround) as (_ & _ & Hty & Hev).
  destruct (tool_round_length _ _ _ _ _ _ _ Hround) as [Hlen1 Hlen2].
  split_and!; [done|done|congruence|by eapply tool_round_outcomes|].
  apply Forall_forall. intros result Hin.
  assert (result_type result ∈ result_type <$> results) as Hmem
    by (by apply list_elem_of_fmap_2).
  rewrite Hty in Hmem. by apply elem_of_replicate in Hmem as [-> _].
Qed.

(** X7, blocks that are no tool use are passed over. [_handle_tool_execution]
    does to a response what it does to the response stripped of the blocks
    whose type is not ["tool_use"]; on a response without such a block it
    returns the empty list and leaves world and trace alone. *)
Theorem other_blocks_passed_over (response : Response) (tm : TM) (st : Run W) :
  _handle_tool_execution execute_tool response tm st
  = _handle_tool_execution execute_tool
      (mkResponse (filter (fun b => block_type b = "tool_use") (content response))
         (stop_reason response)) tm st ∧
  (Forall (fun b => block_type b ≠ "tool_use") (content response) →
   _handle_tool_execution execute_tool response tm st = (Ok [], st)).
Proof.
  unfold _handle_tool_execution. simpl.
  assert (∀ blocks acc s, handle_blocks execute_tool blocks tm acc s
            = handle_blocks execute_tool
                (filter (fun b => block_type b = "tool_use") blocks) tm acc s) as Hfilter.
  { induction blocks as [|[text|id name input] rest IH]; intros acc s; [done|..].
    - rewrite filter_cons_False by done. apply IH.
    - rewrite filter_cons_True by done. simpl. unfold bind.
      destruct (try_except _ _ s) as [[results|e] s']; [apply IH|done]. }
  split; [apply Hfilter|].
  intros Hnone. rewrite Hfilter.
  replace (filter _ (content response)) with (@nil ContentBlock); [by destruct st|].
  symmetry. induction Hnone as [|b rest Hb _ IH]; [done|].
  by rewrite filter_cons_False.
Qed.

(** The first model call of the rounds still to come is made in the world
    they start in. *)
Lemma Rounds_first_outcome self sys rounds (state : ConversationState TM) st answer st' :
  Rounds create execute_tool self sys rounds state st answer st' →
  ∃ p outcome tr,
    trace st' = trace st ++ ModelCall p outcome :: tr ∧
    api_messages p = messages state ∧
    outcome = (create p (world st)).1.
Proof.
  intros Hrounds.
  destruct (Rounds_first_call _ _ _ _ _ _ _ _ _ Hrounds)
    as (p & outcome & tr & Htrace & Hmessages).
  exists p, outcome, tr. split_and!; [done..|].
  destruct Hrounds as [state st outcome' w' Hcreate
                      |n rest state st e w' Hcreate
                      |n rest state st r w' Hcreate Hand
                      |n rest state st r w1 tm results events w2 answer st' Hcreate Hand
                         Hround Hrest]; simpl in Htrace.
  1-3: apply app_inv_head in Htrace; injection Htrace as <- <- _;
    by rewrite Hcreate.
  destruct (Rounds_first_call _ _ _ _ _ _ _ _ _ Hrest) as (? & ? & ? & Htrace' & _).
  simpl in Htrace'. rewrite Htrace', <- app_assoc in Htrace. simpl in Htrace.
  apply app_inv_head in Htrace. injection Htrace as <- <- _. by rewrite Hcreate.
Qed.

(** X8, a tool round without requests. When a response has the stop reason
    ["tool_use"] but holds no tool-use block and a tool manager is there,
    no tool is called and the loop goes on: the next model call is made, in
    the world the response came in, on the messages so far and the
    assistant message with the response's blocks, with no user message
    after it. *)
Theorem tool_round_without_requests self sys round_num rest
    (state : ConversationState TM) st tm r w1 :
  tool_manager state = Some tm →
  create (round_params self state sys) (world st) = (Ok r, w1) →
  stop_reason r = "tool_use" →
  tool_requests (content r) = [] →
  ∃ p tr,
    trace (rounds_loop self (round_num :: rest) state sys st).2
    = trace st ++ ModelCall (round_params self state sys) (Ok r)
        :: ModelCall p (create p w1).1 :: tr ∧
    api_messages p
    = messages state ++ [mkMessage "assistant" (Blocks (content r))].
Proof.
  intros Htm Hcreate Hstop Hnone.
  assert (py_and (String.eqb (stop_reason r) "tool_use") (tool_manager state)
          = Some tm) as Hand by (by rewrite Hstop, Htm).
  rewrite (rounds_loop_tool_round _ _ _ _ _ _ _ _ _ _ _ Hcreate Hand).
  destruct (tool_round (content r) tm w1) as [[results events] w2] eqn:Hround.
  destruct (tool_round_length _ _ _ _ _ _ _ Hround) as [Hlen1 Hlen2].
  rewrite Hnone in Hlen1, Hlen2.
  destruct results; [|done]. destruct events; [|done].
  assert (w2 = w1) as ->.
  { clear -Hround Hnone. revert Hround Hnone. generalize (content r).
    induction l as [|[text|id name input] l IH]; simpl.
    - by intros [= ->].
    - apply IH.
    - done. }
  destruct (rounds_loop_Rounds create execute_tool self sys rest
              (next_state state round_num r [])
              (mkRun w1 (trace st ++ [ModelCall (round_params self state sys) (Ok r)])))
    as (answer & st' & Hrun & Hrounds).
  rewrite Hrun. simpl.
  destruct (Rounds_first_outcome _ _ _ _ _ _ _ Hrounds)
    as (p & outcome & tr & Htrace & Hmessages & ->).
  simpl in Htrace, Hmessages. rewrite <- app_assoc in Htrace.
  by exists p, tr.
Qed.


(** X9, the three shapes of a round. [_execute_single_round] never raises,
    and what it returns is a tool round (the response, its tool results, no
    text, no error; only with a tool manager and the stop reason
    ["tool_use"]), or a final text (the response and the text of its first
    block, no tool results, no error), or an error message alone. Whenever
    [_should_terminate] then lets the loop go on, [_prepare_next_round] has
    a response to read and does not raise. *)
Theorem round_response_shape self (state : ConversationState TM) sys (st : Run W)
    round_num budget :
  ∃ round_response st',
    _execute_single_round create execute_tool self state sys st
    = (Ok round_response, st') ∧
    ((∃ r results,
        round_response = mkRoundResponse (Some r) true results None None ∧
        stop_reason r = "tool_use" ∧ is_Some (tool_manager state)) ∨
     (∃ r text,
        round_response = mkRoundResponse (Some r) false [] (Some text) None ∧
        content_0_text r = Ok text) ∨
     (∃ msg, round_response = mkRoundResponse None false [] None (Some msg))) ∧
    (_should_terminate round_response round_num budget = false →
     ∃ state', _prepare_next_round state round_response st' = (Ok state', st')).
Proof.
  unfold _execute_single_round, try_except, bind at 1, client_create, external.
  destruct (create _ _) as [[r|e] w1]; simpl.
  - destruct (py_and _ _) as [tm|] eqn:Hand.
    + unfold bind, _handle_tool_execution. rewrite handle_blocks_tool_round. simpl.
      destruct (tool_round (content r) tm w1) as [[results events] w2].
      simpl. unfold ret. eexists _, _. split; [reflexivity|].
      apply py_and_Some in Hand as [Hstop Htm]. split.
      * left. exists r, results. split_and!; [done| |by rewrite Htm].
        by apply String.eqb_eq.
      * intros _. unfold _prepare_next_round. simpl. by eexists.
    + unfold bind, eval, ret.
      destruct (content_0_text r) as [text|[msg]] eqn:Htext; simpl.
      * eexists _, _. split; [reflexivity|]. split.
        -- right. left. by exists r, text.
        -- intros Hno. by compute in Hno.
      * eexists _, _. split; [reflexivity|]. split.
        -- right. right. by eexists.
        -- intros Hno. destruct msg; by compute in Hno.
  - unfold ret. eexists _, _. split; [reflexivity|]. split.
    + right. right. by eexists.
    + intros Hno. destruct e as [[|c msg]]; by compute in Hno.
Qed.

Lemma Rounds_budget self sys rounds (state : ConversationState TM) st answer st' :
  Rounds create execute_tool self sys rounds state st answer st' →
  ∃ events,
    trace st' = trace st ++ events ∧
    1 ≤ length (model_calls events) ≤ length rounds + 1 ∧
    ∀ p, model_calls events !! length rounds = Some p → tool_free p.
Proof.
  induction 1 as [state st outcome w' Hcreate
                 |n rest state st e w' Hcreate
                 |n rest state st r w' Hcreate Hand
                 |n rest state st r w1 tm results events w2 answer st' Hcreate Hand
                    Hround Hrest IH].
  - eexists. split; [done|]. simpl. split; [lia|]. by intros p [= <-].
  - eexists. split; [done|]. simpl. split; [lia|]. done.
  - eexists. split; [done|]. simpl. split; [lia|]. done.
  - destruct IH as (events' & Htrace & Hlen & Hfree). simpl in Htrace.
    destruct (tool_round_silent _ _ _ _ _ _ _ Hround) as [_ Hsilent].
    exists (ModelCall (round_params self state sys) (Ok r) :: events ++ events').
    split; [by rewrite Htrace, <- app_assoc|].
    simpl. rewrite model_calls_app, Hsilent. simpl. split; [lia|done].
Qed.

(** X12, the bound for any budget. Run over any list of rounds, the loop
    returns a string, having made at least one model call and at most one
    more than there are rounds; a call beyond the rounds, the forced one,
    carries neither tools nor a tool choice. *)
Theorem any_budget_bound self rounds (state : ConversationState TM) sys (st : Run W) :
  ∃ answer events w',
    rounds_loop self rounds state sys st
    = (Ok answer, mkRun w' (trace st ++ events)) ∧
    1 ≤ length (model_calls events) ≤ length rounds + 1 ∧
    ∀ p, model_calls events !! length rounds = Some p → tool_free p.
Proof.
  destruct (rounds_loop_Rounds create execute_tool self sys rounds state st)
    as (answer & [w' tr] & Hrun & Hrounds).
  destruct (Rounds_budget _ _ _ _ _ _ _ Hrounds) as (events & Htrace & Hbound).
  simpl in Htrace. subst tr. by exists answer, events, w'.
Qed.

End Rounds.

(** ** These properties on the scripted collaborators *)

Section MoreScenarios.
Import Mock.

Local Abbreviation run_mock := (invoke Mock.create Mock.execute_tool prompt generator).
Local Abbreviation offered := (Some [search_schema]).
Local Abbreviation searching :=
  (run_mock "Complex query" None offered (Some (Ok "Search result")) two_searches).

(** With a history, the call carries the prompt and the history. *)
Lemma call_parameters_with_history :
  let p := round_params generator
             (initial_state "Follow-up question" None (@None ToolManager))
             (system_content_of prompt (Some "Previous conversation context")) in
  api_model p = "claude-sonnet-4-20250514" ∧
  api_temperature p = 0%Z ∧
  api_max_tokens p = 800%Z ∧
  api_system p = prompt +:+ newline +:+ newline +:+ "Previous conversation:" +:+ newline
                 +:+ "Previous conversation context".
Proof.
  apply (call_parameters_constant Mock.create Mock.execute_tool prompt generator
           "Follow-up question" (Some "Previous conversation context") None None
           [Ok (text_response "This is a follow-up response")]).
  vm_compute. constructor.
Defined.

(** An empty list of tools is no tools. *)
Lemma tools_absent_for_empty_list :
  tool_free (round_params generator
               (initial_state "What is 2+2?" (Some []) (Some (Ok "unused"))) prompt).
Proof.
  apply (proj2 (tools_offered_or_absent Mock.create Mock.execute_tool prompt generator
                  "What is 2+2?" None (Some []) (Some (Ok "unused"))
                  [Ok (text_response "4")] _ ltac:(vm_compute; constructor))).
  by right.
Defined.

(** The second call of two searches: query, request, result. *)
Lemma conversation_grows_second_call :
  ∃ r results,
    model_outcomes (trace searching.2) !! 0 = Some (Ok r) ∧
    tool_use_id <$> results = (fun rq => rq.1.1) <$> tool_requests (content r) ∧
    api_messages (round_params generator
                    (next_state (initial_state "Complex query" offered
                                   (Some (Ok "Search result")))
                       1 (tool_use_response "tool_1" "first search")
                       [mkToolResult "tool_result" "tool_1" "Search result"])
                    prompt)
    = api_messages (round_params generator
                      (initial_state "Complex query" offered
                         (Some (Ok "Search result"))) prompt)
      ++ mkMessage "assistant" (Blocks (content r)) ::
         (if truthy results then [mkMessage "user" (Results results)] else []).
Proof.
  apply (proj2 (conversation_grows Mock.create Mock.execute_tool prompt generator
                  "Complex query" None offered (Some (Ok "Search result"))
                  two_searches) 0); reflexivity.
Defined.

(** The forced call of two searches is made on five messages. *)
Lemma roles_alternate_forced_call :
  ∃ p, model_calls (trace searching.2) !! 2 = Some p ∧
       role <$> api_messages p = ["user"; "assistant"; "user"; "assistant"; "user"] ∧
       length (api_messages p) = 5.
Proof.
  eexists. split; [reflexivity|].
  refine (roles_alternate Mock.create Mock.execute_tool prompt generator
            "Complex query" None offered (Some (Ok "Search result"))
            two_searches _ 2 _ eq_refl).
  intros r Hr _.
  change (take 2 _) with [Ok (tool_use_response "tool_1" "first search");
                          Ok (tool_use_response "tool_2" "second search")] in Hr.
  rewrite !elem_of_cons, elem_of_nil in Hr.
  destruct Hr as [[= ->]|[[= ->]|[]]]; discriminate.
Defined.

(** Two searches: two tool calls, three model calls. *)
Lemma executed_tools_two_searches :
  tool_calls (trace searching.2)
  = concat (requested_calls <$> take 2 (model_outcomes (trace searching.2))) ∧
  length (model_calls (trace searching.2))
  = 1 + length (filter (fun o => requests_tools o = true)
                  (take 2 (model_outcomes (trace searching.2)))).
Proof.
  apply (executed_tools_are_requested Mock.create Mock.execute_tool prompt generator
           "Complex query" None offered (Some (Ok "Search result")) two_searches).
  by eexists.
Defined.

(** A response of text alone: nothing to execute. *)
Lemma other_blocks_text_alone :
  _handle_tool_execution Mock.execute_tool (text_response "4") (Ok "unused")
    (mkRun [] [])
  = (Ok [], mkRun [] []).
Proof.
  apply (proj2 (other_blocks_passed_over Mock.execute_tool (text_response "4")
                  (Ok "unused") (mkRun [] []))).
  repeat constructor; discriminate.
Defined.

(** A response that stops for tools without asking for one. *)
Lemma tool_round_without_requests_text :
  ∃ p tr,
    trace (rounds_loop Mock.create Mock.execute_tool generator [1; 2]
             (initial_state "Query" offered (Some (Ok "unused"))) prompt
             (mkRun [Ok (mkResponse [TextBlock "Searching."] "tool_use");
                     Ok (text_response "Done")] [])).2
    = [] ++ ModelCall (round_params generator
                         (initial_state "Query" offered (Some (Ok "unused"))) prompt)
              (Ok (mkResponse [TextBlock "Searching."] "tool_use"))
        :: ModelCall p (Mock.create p [Ok (text_response "Done")]).1 :: tr ∧
    api_messages p
    = messages (initial_state "Query" offered (Some (Ok "unused")))
      ++ [mkMessage "assistant" (Blocks [TextBlock "Searching."])].
Proof.
  apply (tool_round_without_requests Mock.create Mock.execute_tool generator prompt
           1 [2] (initial_state "Query" offered (Some (Ok "unused")))
           (mkRun [Ok (mkResponse [TextBlock "Searching."] "tool_use");
                   Ok (text_response "Done")] [])
           (Ok "unused") (mkResponse [TextBlock "Searching."] "tool_use")
           [Ok (text_response "Done")]); reflexivity.
Defined.

(** A tool round of two requests, and the state prepared after it. *)
Lemma round_response_shape_two_requests :
  ∃ round_response st',
    _execute_single_round Mock.create Mock.execute_tool generator
      (initial_state "Search for multiple things" offered (Some (Ok "Search result")))
      prompt (mkRun [Ok two_requests] [])
    = (Ok round_response, st') ∧
    ((∃ r results,
        round_response = mkRoundResponse (Some r) true results None None ∧
        stop_reason r = "tool_use" ∧
        is_Some (tool_manager (initial_state "Search for multiple things" offered
                                 (Some (Ok "Search result"))))) ∨
     (∃ r text,
        round_response = mkRoundResponse (Some r) false [] (Some text) None ∧
        content_0_text r = Ok text) ∨
     (∃ msg, round_response = mkRoundResponse None false [] None (Some msg))) ∧
    (_should_terminate round_response 1 2 = false →
     ∃ state', _prepare_next_round
                 (initial_state "Search for multiple things" offered
                    (Some (Ok "Search result"))) round_response st'
               = (Ok state', st')).
Proof.
  exact (round_response_shape Mock.create Mock.execute_tool generator
           (initial_state "Search for multiple things" offered
              (Some (Ok "Search result")))
           prompt (mkRun [Ok two_requests] []) 1 2).
Defined.

(** An exception without a message. *)
Lemma empty_failure_message_first_round :
  (run_mock "Test query" None None None [Raise (Exn "")]).1
  = Ok "No response generated".
Proof.
  apply (empty_failure_message Mock.create Mock.execute_tool prompt generator
           "Test query" None None None [Raise (Exn "")] 0 (Exn ""));
    [reflexivity|lia|reflexivity].
Defined.

(** A forced final answer without text is returned as it is. *)
Lemma forced_answer_empty_text :
  (run_mock "Complex query" None offered (Some (Ok "Search result"))
     [Ok (tool_use_response "tool_1" "first search");
      Ok (tool_use_response "tool_2" "second search");
      Ok (text_response "")]).1
  = Ok "".
Proof.
  apply (forced_answer_verbatim Mock.create Mock.execute_tool prompt generator
           "Complex query" None offered (Some (Ok "Search result"))
           [Ok (tool_use_response "tool_1" "first search");
            Ok (tool_use_response "tool_2" "second search");
            Ok (text_response "")] (text_response "")).
  reflexivity.
Defined.

End MoreScenarios.
